(** * Birthday-greetings: the repository, the HTTP handlers and the bot

    A shallow embedding of the Go service [rutubeTest]:

    - package [user]     (the MySQL repository, [UserMysqlRepository]),
    - package [handlers] (the HTTP handlers of [UserHandler]),
    - package [bot]      (the Telegram command handlers and the daily
                          notification cycle).

    The relational store is modelled by its tables, as [init.sql] declares
    them: every statement of the repository is a function on the rows, and
    the constraints of the schema (UNIQUE, FOREIGN KEY, a nullable column)
    decide when a statement fails.  The server is taken to be reachable: a
    statement fails only for a reason that the rows determine.  Console
    logging ([fmt.Println], the zap logger) is not part of the model.

    Go's [(value, error)] results are pairs of options, [nil] being [None];
    a run-time panic is an outcome of its own. *)

From Stdlib Require Import ZArith List String Ascii Bool Lia Permutation.
Import ListNotations.

Open Scope string_scope.
Open Scope list_scope.
Open Scope Z_scope.

Infix "+++" := String.append (right associativity, at level 60).

(** ** Go values shared by the packages *)

(** Go's [error] interface.  The three sentinels of package [user] are
    compared by identity ([err == user.ErrNoUser]); every other error
    ([errors.New], [fmt.Errorf], the errors of [database/sql], [strconv] and
    [bcrypt]) is a value of its own carrying its message. *)
Inductive error : Type :=
| ErrNoUser
| ErrBadPass
| ErrExists
| ErrOther (msg : string).

Definition Error (e : error) : string :=
  match e with
  | ErrNoUser => "no user found"
  | ErrBadPass => "invalid password"
  | ErrExists => "already exists"
  | ErrOther msg => msg
  end.

Definition error_eqb (a b : error) : bool :=
  match a, b with
  | ErrNoUser, ErrNoUser => true
  | ErrBadPass, ErrBadPass => true
  | ErrExists, ErrExists => true
  | _, _ => false
  end.

(** [err == sentinel] on a possibly nil error. *)
Definition err_is (err : option error) (sentinel : error) : bool :=
  match err with
  | Some e => error_eqb e sentinel
  | None => false
  end.

(** The outcome of running Go code that may panic. *)
Inductive outcome (A : Type) : Type :=
| Done (a : A)
| Panic (msg : string).
Arguments Done {A} a.
Arguments Panic {A} msg.

(** [strings.HasPrefix]. *)
Definition HasPrefix (s pre : string) : bool := String.prefix pre s.

Definition quote : string := String (ascii_of_nat 34) EmptyString.
Definition newline : string := String (ascii_of_nat 10) EmptyString.

(** Decimal rendering ([strconv.FormatInt (n, 10)] and the digits of a
    DATE) and the reading of decimal digits. *)
Definition digit_char (d : Z) : ascii := ascii_of_nat (48 + Z.to_nat d).

Fixpoint digits_of (fuel : nat) (n : Z) (acc : string) : string :=
  match fuel with
  | O => acc
  | S fuel' =>
      let acc' := String (digit_char (n mod 10)) acc in
      if n / 10 =? 0 then acc' else digits_of fuel' (n / 10) acc'
  end.

Definition FormatInt (n : Z) : string :=
  if n <? 0 then "-" +++ digits_of (S (Z.to_nat (Z.log2 (- n)))) (- n) ""
  else digits_of (S (Z.to_nat (Z.log2 n))) n "".

Fixpoint pad_left (width : nat) (s : string) : string :=
  if (width <=? String.length s)%nat then s
  else match width with
       | O => s
       | S w => pad_left w ("0" +++ s)
       end.

Definition digit_val (c : ascii) : option Z :=
  let n := Z.of_nat (nat_of_ascii c) in
  if (48 <=? n) && (n <=? 57) then Some (n - 48) else None.

Fixpoint parse_digits (s : string) (acc : Z) : option Z :=
  match s with
  | EmptyString => Some acc
  | String c s' =>
      match digit_val c with
      | Some d => parse_digits s' (10 * acc + d)
      | None => None
      end
  end.

(** [s[n:]] on a Go string: a run-time panic when [n > len(s)]. *)
Fixpoint drop_bytes (n : nat) (s : string) : string :=
  match n, s with
  | O, _ => s
  | S n', String _ s' => drop_bytes n' s'
  | S _, EmptyString => EmptyString
  end.

Definition slice_from (s : string) (n : nat) : outcome string :=
  if (n <=? String.length s)%nat then Done (drop_bytes n s)
  else Panic ("runtime error: slice bounds out of range [" +++ FormatInt (Z.of_nat n) +++
              ":" +++ FormatInt (Z.of_nat (String.length s)) +++ "]").

(** The panic of a nil pointer dereference. *)
Definition nilDereference : string :=
  "runtime error: invalid memory address or nil pointer dereference".

(** A DATE value of the server. *)
Record Date : Type := { year : Z; month : Z; day : Z }.

(** ** What the service takes from outside

    [bcrypt] and the server's handling of text are libraries, not code of
    the repository; the model is generic in them. *)
Class Platform : Type := {
  (** [bcrypt.CompareHashAndPassword hash password]: [nil] on a match. *)
  CompareHashAndPassword : string -> string -> option error;
  (** [bcrypt.GenerateFromPassword password cost], with the salt it draws
      from [crypto/rand] made explicit. *)
  GenerateFromPassword : string -> string -> Z -> string * option error;
  (** Equality of two VARCHAR values under the collation of the tables. *)
  collate : string -> string -> bool;
  (** Whether the server accepts a text for a VARCHAR(200) column. *)
  fitsVarchar : string -> bool;
  (** The server's conversion of a text to a DATE, [None] when it rejects
      the text. *)
  toDate : string -> option Date;
  (** [strconv.Quote]: a text as a Go string literal, which is how the
      errors of [strconv] show the text they could not parse. *)
  Quote : string -> string;
}.

(** Why [strconv] gives up on a number. *)
Inductive NumError : Type :=
| ErrSyntax
| ErrRange.

Definition maxUint64 : Z := 2 ^ 64 - 1.

(** The loop of [strconv.ParseUint] in base 10 over the bytes after the
    sign: a byte that is no digit is a syntax error; a value that leaves
    64 bits is a range error, found before the bytes behind it are looked
    at. *)
Fixpoint ParseUint (s : string) (n : Z) : Z + NumError :=
  match s with
  | EmptyString => inl n
  | String c s' =>
      match digit_val c with
      | None => inr ErrSyntax
      | Some d =>
          if maxUint64 / 10 + 1 <=? n then inr ErrRange
          else
            let n1 := n * 10 + d in
            if maxUint64 <? n1 then inr ErrRange else ParseUint s' n1
      end
  end.

(** [strconv.Atoi] on a 64-bit platform: an optional sign, then digits.
    A syntax error comes with the value 0, a range error with the nearest
    bound of [int]; the text of either shows the whole argument, quoted by
    [strconv.Quote]. *)
Definition Atoi {P : Platform} (s : string) : Z * option error :=
  let syntax := ErrOther ("strconv.Atoi: parsing " +++ Quote s +++ ": invalid syntax") in
  let range := ErrOther ("strconv.Atoi: parsing " +++ Quote s +++ ": value out of range") in
  let '(neg, body) :=
    match s with
    | String "-" s' => (true, s')
    | String "+" s' => (false, s')
    | _ => (false, s)
    end in
  match body with
  | EmptyString => (0, Some syntax)
  | _ =>
      match ParseUint body 0 with
      | inr ErrSyntax => (0, Some syntax)
      | inr ErrRange => if neg then (- 2 ^ 63, Some range) else (2 ^ 63 - 1, Some range)
      | inl un =>
          if negb neg && (2 ^ 63 <=? un) then (2 ^ 63 - 1, Some range)
          else if neg && (2 ^ 63 <? un) then (- 2 ^ 63, Some range)
          else (if neg then - un else un, None)
      end
  end.

(** [bcrypt.DefaultCost] *)
Definition DefaultCost : Z := 10.

(** ** The schema of [init.sql] *)

(** The server's text form of a DATE, [YYYY-MM-DD], which is what the
    driver hands to [Scan]. *)
Definition formatDate (d : Date) : string :=
  pad_left 4 (FormatInt (year d)) +++ "-" +++
  pad_left 2 (FormatInt (month d)) +++ "-" +++
  pad_left 2 (FormatInt (day d)).

(** Table [users]; [telegramID INT UNIQUE] is the one nullable column. *)
Record UserRow : Type := {
  id : Z;
  username : string;
  firstname : string;
  middlename : string;
  lastname : string;
  password : string;
  birthday : Date;
  telegram : string;
  telegramID : option Z;
}.

(** Table [subscribes]. *)
Record SubscribeRow : Type := {
  sid : Z;
  userID : Z;
  subscriberID : Z;
}.

(** The two tables with their AUTO_INCREMENT counters. *)
Record Database : Type := {
  users : list UserRow;
  usersAutoInc : Z;
  subscribes : list SubscribeRow;
  subscribesAutoInc : Z;
}.

(** The range of an INT column. *)
Definition fitsInt (n : Z) : bool := (- 2 ^ 31 <=? n) && (n <=? 2 ^ 31 - 1).

(** * Package [user] *)
Module user.

(** [type User struct] *)
Record User : Type := {
  ID : Z;
  Username : string;
  FirstName : string;
  MiddleName : string;
  LastName : string;
  Password : string;
  Birthday : string;
  Telegram : string;
  TelegramID : Z;
}.

(** [sql.Rows.Scan] of a nullable INT column into an [int64]: the
    conversion of NULL is refused. *)
Definition scanInt64 (column : nat) (name : string) (v : option Z) : Z * option error :=
  match v with
  | Some n => (n, None)
  | None =>
      (0, Some (ErrOther ("sql: Scan error on column index " +++ FormatInt (Z.of_nat column) +++
                          ", name " +++ quote +++ name +++ quote +++
                          ": converting NULL to int64 is unsupported")))
  end.

(** The loop [for rows.Next() { ... rows.Scan ...; users = append(users, user) }]
    with its early return on a failed [Scan]. *)
Fixpoint scanRows (scan : UserRow -> User * option error) (rows : list UserRow)
    (users : list User) : list User * option error :=
  match rows with
  | [] => (users, None)
  | row :: rest =>
      let '(user, err) := scan row in
      match err with
      | Some e => ([], Some e)
      | None => scanRows scan rest (users ++ [user])
      end
  end.

(** The seven columns read by [GetUsers] and [GetUserByBirthday]; all of
    them are NOT NULL. *)
Definition scanProfile (row : UserRow) : User * option error :=
  ({| ID := id row; Username := username row; FirstName := firstname row;
      MiddleName := middlename row; LastName := lastname row; Password := "";
      Birthday := formatDate (birthday row); Telegram := telegram row;
      TelegramID := 0 |}, None).

(** The eight columns read by [GetSubscribedUsers]: the seven above and
    [u.telegramID]. *)
Definition scanSubscriber (row : UserRow) : User * option error :=
  let '(tid, err) := scanInt64 7 "telegramID" (telegramID row) in
  match err with
  | Some e =>
      ({| ID := id row; Username := username row; FirstName := firstname row;
          MiddleName := middlename row; LastName := lastname row; Password := "";
          Birthday := formatDate (birthday row); Telegram := telegram row;
          TelegramID := 0 |}, Some e)
  | None =>
      ({| ID := id row; Username := username row; FirstName := firstname row;
          MiddleName := middlename row; LastName := lastname row; Password := "";
          Birthday := formatDate (birthday row); Telegram := telegram row;
          TelegramID := tid |}, None)
  end.

Section Repository.
Context {P : Platform}.

(** [SELECT ... FROM users WHERE username = ?] *)
Definition selectByUsername (db : Database) (name : string) : list UserRow :=
  filter (fun r => collate (username r) name) (users db).

(** [SELECT ... FROM users WHERE id = ?] *)
Definition selectByID (db : Database) (uid : Z) : list UserRow :=
  filter (fun r => id r =? uid) (users db).

(** [SELECT ... FROM users WHERE telegram = ?] *)
Definition selectByTelegram (db : Database) (handle : string) : list UserRow :=
  filter (fun r => collate (telegram r) handle) (users db).

(** [SELECT ... FROM users WHERE MONTH(birthday) = ? AND DAY(birthday) = ?] *)
Definition selectByBirthday (db : Database) (m d : Z) : list UserRow :=
  filter (fun r => (month (birthday r) =? m) && (day (birthday r) =? d)) (users db).

(** [SELECT u.* FROM users u JOIN subscribes s ON u.id = s.subscriberID
    WHERE s.userID = ?]: one row for every pair of a subscription of [uid]
    and a user with the subscriber's id.  SQL leaves the order of the rows
    open; here they come in the order of the subscriptions. *)
Definition selectSubscribers (db : Database) (uid : Z) : list UserRow :=
  flat_map (fun s => filter (fun u => id u =? subscriberID s) (users db))
           (filter (fun s => userID s =? uid) (subscribes db)).

(** [QueryRow]: the first row, or [sql.ErrNoRows]. *)
Definition QueryRow (rows : list UserRow) : option UserRow := hd_error rows.

(** [INSERT INTO users (username, password, firstname, middlename, lastname,
    birthday, telegram) VALUES (...)].  A text that does not fit its column
    and a birthday that is no date are refused while the row is being
    made.  A taken username or telegram handle is refused by the UNIQUE
    index, after InnoDB has drawn the AUTO_INCREMENT value for the row:
    that value is lost.  The new row has no [telegramID].  Returns the
    inserted id. *)
Definition insertUser (name hashedPass first middle last bday handle : string)
    (db : Database) : option Z * Database :=
  match toDate bday with
  | None => (None, db)
  | Some date =>
      if forallb fitsVarchar [name; hashedPass; first; middle; last; handle]
      then
        if negb (existsb (fun r => collate (username r) name) (users db))
           && negb (existsb (fun r => collate (telegram r) handle) (users db))
        then
          let row := {| id := usersAutoInc db; username := name; firstname := first;
                        middlename := middle; lastname := last; password := hashedPass;
                        birthday := date; telegram := handle; telegramID := None |} in
          (Some (usersAutoInc db),
           {| users := users db ++ [row]; usersAutoInc := usersAutoInc db + 1;
              subscribes := subscribes db; subscribesAutoInc := subscribesAutoInc db |})
        else
          (None,
           {| users := users db; usersAutoInc := usersAutoInc db + 1;
              subscribes := subscribes db; subscribesAutoInc := subscribesAutoInc db |})
      else (None, db)
  end.

(** [INSERT INTO subscribes (userID, subscriberID) VALUES (?, ?)]: both
    columns are foreign keys into [users(id)]; [true] when the row went in.
    A value that is the id of no user is refused: by the foreign key, after
    InnoDB has drawn the AUTO_INCREMENT value, which is lost, or, when the
    value does not even fit INT, while the row is being made. *)
Definition insertSubscribe (uid sub : Z) (db : Database) : bool * Database :=
  if existsb (fun r => id r =? uid) (users db)
     && existsb (fun r => id r =? sub) (users db)
  then
    (true,
     {| users := users db; usersAutoInc := usersAutoInc db;
        subscribes := subscribes db ++
          [{| sid := subscribesAutoInc db; userID := uid; subscriberID := sub |}];
        subscribesAutoInc := subscribesAutoInc db + 1 |})
  else if fitsInt uid && fitsInt sub
  then
    (false,
     {| users := users db; usersAutoInc := usersAutoInc db;
        subscribes := subscribes db;
        subscribesAutoInc := subscribesAutoInc db + 1 |})
  else (false, db).

(** [DELETE FROM subscribes WHERE userID = ? and subscriberID = ?] *)
Definition deleteSubscribe (uid sub : Z) (db : Database) : Database :=
  {| users := users db; usersAutoInc := usersAutoInc db;
     subscribes := filter (fun s => negb ((userID s =? uid) && (subscriberID s =? sub)))
                          (subscribes db);
     subscribesAutoInc := subscribesAutoInc db |}.

Definition Authorize (name pass : string) (db : Database) : option User * option error :=
  match QueryRow (selectByUsername db name) with
  | None => (None, Some ErrNoUser)
  | Some row =>
      let user := {| ID := id row; Username := username row; FirstName := "";
                     MiddleName := ""; LastName := ""; Password := password row;
                     Birthday := ""; Telegram := ""; TelegramID := 0 |} in
      match CompareHashAndPassword (Password user) pass with
      | Some _ => (None, Some ErrBadPass)
      | None => (Some user, None)
      end
  end.

Definition hashPassword (salt pass : string) : string * option error :=
  let cost := DefaultCost in
  let '(hashedBytes, err) := GenerateFromPassword salt pass cost in
  match err with
  | Some e => (EmptyString, Some e)
  | None => (hashedBytes, None)
  end.

(** [salt] is what [bcrypt] draws from [crypto/rand] during the call. *)
Definition MakeUser (salt name pass first middle last bday handle : string)
    (db : Database) : (option User * option error) * Database :=
  let '(hashedPass, err) := hashPassword salt pass in
  match err with
  | Some e => ((None, Some e), db)
  | None =>
      match insertUser name hashedPass first middle last bday handle db with
      | (None, db') => ((None, Some ErrExists), db')
      | (Some userID, db') =>
          ((Some {| ID := userID; Username := name; FirstName := ""; MiddleName := "";
                    LastName := ""; Password := ""; Birthday := ""; Telegram := "";
                    TelegramID := 0 |}, None), db')
      end
  end.

Definition GetUsers (db : Database) : list User * option error :=
  let '(users, err) := scanRows scanProfile (users db) [] in
  match err with
  | Some e => ([], Some e)
  | None =>
      if (List.length users =? 0)%nat then ([], Some ErrNoUser)
      else (users, None)
  end.

Definition Subscribe (uid sub typeOf : Z) (db : Database)
    : (option User * option error) * Database :=
  match QueryRow (selectByID db uid) with
  | None => ((None, Some ErrNoUser), db)
  | Some row =>
      let user := {| ID := id row; Username := username row; FirstName := "";
                     MiddleName := ""; LastName := ""; Password := "";
                     Birthday := ""; Telegram := telegram row; TelegramID := 0 |} in
      if typeOf =? 1 then
        match insertSubscribe uid sub db with
        | (false, db') => ((None, Some ErrExists), db')
        | (true, db') => ((Some user, None), db')
        end
      else if typeOf =? 0 then
        ((Some user, None), deleteSubscribe uid sub db)
      else ((None, Some (ErrOther "not valid type")), db)
  end.

Definition GetSubscribedUsers (uid : Z) (db : Database) : list User * option error :=
  let '(users, err) := scanRows scanSubscriber (selectSubscribers db uid) [] in
  match err with
  | Some e => ([], Some e)
  | None =>
      if (List.length users =? 0)%nat then ([], Some ErrNoUser)
      else (users, None)
  end.

Definition GetUserByTelegram (handle : string) (db : Database) : option User * option error :=
  match QueryRow (selectByTelegram db handle) with
  | None => (None, Some ErrNoUser)
  | Some row =>
      (Some {| ID := id row; Username := username row; FirstName := "";
               MiddleName := ""; LastName := ""; Password := ""; Birthday := "";
               Telegram := telegram row; TelegramID := 0 |}, None)
  end.

Definition GetUserByBirthday (m d : Z) (db : Database) : list User * option error :=
  let '(users, err) := scanRows scanProfile (selectByBirthday db m d) [] in
  match err with
  | Some e => ([], Some e)
  | None =>
      if (List.length users =? 0)%nat then ([], Some ErrNoUser)
      else (users, None)
  end.

Definition sameTelegramID (v : option Z) (tid : Z) : bool :=
  match v with
  | Some n => n =? tid
  | None => false
  end.

(** [UPDATE users SET telegramID = ? WHERE telegram = ?].  The driver
    reports the rows that changed: a row that already holds the value
    counts for nothing.  The statement is refused when the value does not
    fit INT or is the [telegramID] of another row. *)
Definition UpdateUser (tid : Z) (handle : string) (db : Database)
    : option error * Database :=
  match selectByTelegram db ("@" +++ handle) with
  | [] => (Some (ErrOther "no rows updated"), db)
  | _ :: _ =>
      if forallb (fun r => sameTelegramID (telegramID r) tid)
                 (selectByTelegram db ("@" +++ handle))
      then (Some (ErrOther "no rows updated"), db)
      else if negb (fitsInt tid)
      then (Some (ErrOther "Error 1264 (22003): Out of range value for column 'telegramID' at row 1"), db)
      else if existsb (fun r => sameTelegramID (telegramID r) tid
                                && negb (collate (telegram r) ("@" +++ handle))) (users db)
      then (Some (ErrOther ("Error 1062 (23000): Duplicate entry '" +++ FormatInt tid +++
                            "' for key 'users.telegramID'")), db)
      else
        (None,
         {| users := map (fun r =>
                            if collate (telegram r) ("@" +++ handle)
                            then {| id := id r; username := username r;
                                    firstname := firstname r; middlename := middlename r;
                                    lastname := lastname r; password := password r;
                                    birthday := birthday r; telegram := telegram r;
                                    telegramID := Some tid |}
                            else r) (users db);
            usersAutoInc := usersAutoInc db;
            subscribes := subscribes db;
            subscribesAutoInc := subscribesAutoInc db |})
  end.

End Repository.
End user.

(** ** The interface [UserRepo] and the repository behind it *)
Module UserRepo.

(** [type UserRepo interface], over the state [R] of an implementation. *)
Class UserRepo (R : Type) : Type := {
  Authorize : string -> string -> R -> (option user.User * option error) * R;
  MakeUser : string -> string -> string -> string -> string -> string -> string -> R ->
             (option user.User * option error) * R;
  GetUsers : R -> (list user.User * option error) * R;
  Subscribe : Z -> Z -> Z -> R -> (option user.User * option error) * R;
  GetSubscribedUsers : Z -> R -> (list user.User * option error) * R;
  GetUserByTelegram : string -> R -> (option user.User * option error) * R;
  UpdateUser : Z -> string -> R -> option error * R;
}.

(** [type UserMysqlRepository struct { DB *sql.DB }], together with the
    random source [bcrypt] reads: [entropy n] is the [n]-th salt. *)
Record UserMysqlRepository : Type := {
  DB : Database;
  entropy : nat -> string;
  drawn : nat;
}.

Definition withDB (repo : UserMysqlRepository) (db : Database) : UserMysqlRepository :=
  {| DB := db; entropy := entropy repo; drawn := drawn repo |}.

#[global] Instance Mysql {P : Platform} : UserRepo UserMysqlRepository := {
  Authorize name pass repo := (user.Authorize name pass (DB repo), repo);
  MakeUser name pass first middle last bday handle repo :=
    let '(res, db) := user.MakeUser (entropy repo (drawn repo)) name pass first middle
                                    last bday handle (DB repo) in
    (res, {| DB := db; entropy := entropy repo; drawn := S (drawn repo) |});
  GetUsers repo := (user.GetUsers (DB repo), repo);
  Subscribe uid sub typeOf repo :=
    let '(res, db) := user.Subscribe uid sub typeOf (DB repo) in (res, withDB repo db);
  GetSubscribedUsers uid repo := (user.GetSubscribedUsers uid (DB repo), repo);
  GetUserByTelegram handle repo := (user.GetUserByTelegram handle (DB repo), repo);
  UpdateUser tid handle repo :=
    let '(err, db) := user.UpdateUser tid handle (DB repo) in (err, withDB repo db);
}.

End UserRepo.

(** * Package [sessions], as package [handlers] uses it

    Only the interface is needed: the handlers never look behind it. *)
Module sessions.

(** [type Session struct]: the fields [Login] sets. *)
Record Session : Type := {
  ID : Z;
  Login : string;
  Useragent : string;
}.

(** [type SessionID struct { ID string }]; the field is named [Token] here,
    [ID] being taken by [Session]. *)
Record SessionID : Type := { Token : string }.

(** [type SessionManagerInterface interface], over the state [S] of the
    store behind it. *)
Class SessionManagerInterface (S : Type) : Type := {
  Create : Session -> S -> (option SessionID * option error) * S;
  Check : SessionID -> S -> option Session * S;
}.

End sessions.

(** * Package [handlers] *)
Module handlers.

Definition ErrReading : string := "{" +++ quote +++ "message" +++ quote +++ ": " +++ quote +++ "error reading request" +++ quote +++ "}".
Definition ErrUserNotFound : string := "{" +++ quote +++ "message" +++ quote +++ ":" +++ quote +++ "user not found" +++ quote +++ "}".
Definition ErrInvalidPass : string := "{" +++ quote +++ "message" +++ quote +++ ":" +++ quote +++ "invalid password" +++ quote +++ "}".
Definition ErrBadRequest : string := "{" +++ quote +++ "message" +++ quote +++ ": " +++ quote +++ "bad request" +++ quote +++ "}".

Definition StatusOK : Z := 200.
Definition StatusBadRequest : Z := 400.
Definition StatusUnauthorized : Z := 401.
Definition StatusUnprocessableEntity : Z := 422.
Definition StatusInternalServerError : Z := 500.

Record AuthForm : Type := {
  af_Username : string;
  af_Password : string;
}.

Record RegForm : Type := {
  rf_Username : string;
  rf_FirstName : string;
  rf_MiddleName : string;
  rf_LastName : string;
  rf_Password : string;
  rf_Birthday : string;
  rf_Telegram : string;
}.

Record SubscribeForm : Type := {
  sf_UserID : Z;
  sf_SubscriberID : Z;
}.

(** The request as the handler meets it: the [Authorization] header, the
    user agent, and the body after [io.ReadAll] and [json.Unmarshal]. *)
Inductive RequestBody (Form : Type) : Type :=
| Unreadable
| Malformed
| Decoded (form : Form).
Arguments Unreadable {Form}.
Arguments Malformed {Form}.
Arguments Decoded {Form} form.

Record Request (Form : Type) : Type := {
  Authorization : string;
  UserAgent : string;
  Body : RequestBody Form;
}.
Arguments Authorization {Form} _.
Arguments UserAgent {Form} _.
Arguments Body {Form} _.

(** One entry of the ["errors"] list: [map[string]string] with the keys
    [location], [param] and [msg]. *)
Record FieldError : Type := {
  location : string;
  param : string;
  msg : string;
}.

(** What has been written to the [http.ResponseWriter] when the handler
    returns; JSON documents are kept as the values they encode. *)
Inductive Payload : Type :=
| PlainText (text : string)
| JSONErrors (errors : list FieldError)
| JSONSession (session : string)
| JSONUsers (users : list user.User)
| NoBody.

Record Response : Type := {
  StatusCode : Z;
  Written : Payload;
}.

(** [http.Error(w, text, code)]: the text goes out with [fmt.Fprintln]. *)
Definition http_Error (text : string) (code : Z) : Response :=
  {| StatusCode := code; Written := PlainText (text +++ newline) |}.

Definition lower_ascii (c : ascii) : ascii :=
  let n := nat_of_ascii c in
  if ((65 <=? n) && (n <=? 90))%nat then ascii_of_nat (n + 32) else c.

(** [strings.ToLower] on the ASCII names of struct fields. *)
Fixpoint ToLower (s : string) : string :=
  match s with
  | EmptyString => EmptyString
  | String c s' => String (lower_ascii c) (ToLower s')
  end.

(** The fields of a form tagged [validate:"required"], each with whether
    it holds the zero value of its type. *)
Class Validated (Form : Type) : Type := requiredFields : Form -> list (string * bool).

#[global] Instance AuthForm_Validated : Validated AuthForm :=
  fun af => [("Password", String.eqb (af_Password af) "")].

#[global] Instance RegForm_Validated : Validated RegForm :=
  fun rf => [("Username", String.eqb (rf_Username rf) "");
             ("FirstName", String.eqb (rf_FirstName rf) "");
             ("LastName", String.eqb (rf_LastName rf) "");
             ("Password", String.eqb (rf_Password rf) "");
             ("Birthday", String.eqb (rf_Birthday rf) "");
             ("Telegram", String.eqb (rf_Telegram rf) "")].

#[global] Instance SubscribeForm_Validated : Validated SubscribeForm :=
  fun sf => [("UserID", sf_UserID sf =? 0); ("SubscriberID", sf_SubscriberID sf =? 0)].

(** [dataValidation]: one entry for every required field that is empty;
    [nil] when the form passes. *)
Definition dataValidation {Form : Type} `{Validated Form} (fd : Form) : list FieldError :=
  map (fun someErr => {| location := "body"; param := ToLower (fst someErr);
                         msg := "is required" |})
      (filter snd (requiredFields fd)).

(** A call made through one of the two interfaces of the handler. *)
Inductive Call : Type :=
| CallAuthorize (name pass : string)
| CallMakeUser (name pass first middle last bday handle : string)
| CallGetUsers
| CallSubscribe (uid sub typeOf : Z)
| CallCreate (sess : sessions.Session)
| CallCheck (key : sessions.SessionID).

(** [type UserHandler struct { UserRepo; Logger; Sessions }] over the states
    of the two collaborators; [Journal] records, oldest first, the calls
    the handler has made through them. *)
Record UserHandler (R S : Type) : Type := {
  UserRepo : R;
  Sessions : S;
  Journal : list Call;
}.
Arguments UserRepo {R S} _.
Arguments Sessions {R S} _.
Arguments Journal {R S} _.

Section Handlers.
Context {R S : Type} {Repo : UserRepo.UserRepo R} {Store : sessions.SessionManagerInterface S}.

Definition onRepo {A : Type} (call : Call) (method : R -> A * R) (h : UserHandler R S)
    : A * UserHandler R S :=
  let '(res, repo) := method (UserRepo h) in
  (res, {| UserRepo := repo; Sessions := Sessions h; Journal := Journal h ++ [call] |}).

Definition onSessions {A : Type} (call : Call) (method : S -> A * S) (h : UserHandler R S)
    : A * UserHandler R S :=
  let '(res, store) := method (Sessions h) in
  (res, {| UserRepo := UserRepo h; Sessions := store; Journal := Journal h ++ [call] |}).

Definition is_nil {A : Type} (l : list A) : bool :=
  match l with
  | [] => true
  | _ :: _ => false
  end.

(** The tail shared by [Login] and [Register]: store the session and
    answer with its id. *)
Definition issueSession (u : user.User) (agent : string) (h : UserHandler R S)
    : outcome Response * UserHandler R S :=
  let session := {| sessions.ID := user.ID u; sessions.Login := user.Username u;
                    sessions.Useragent := agent |} in
  let '((sess, err), h) := onSessions (CallCreate session) (sessions.Create session) h in
  match err with
  | Some _ => (Done {| StatusCode := StatusInternalServerError; Written := NoBody |}, h)
  | None =>
      match sess with
      | None => (Panic nilDereference, h)
      | Some sess =>
          (Done {| StatusCode := StatusOK; Written := JSONSession (sessions.Token sess) |}, h)
      end
  end.

Definition Login (r : Request AuthForm) (h : UserHandler R S)
    : outcome Response * UserHandler R S :=
  match Body r with
  | Unreadable => (Done (http_Error ErrReading StatusBadRequest), h)
  | Malformed => (Done (http_Error ErrBadRequest StatusBadRequest), h)
  | Decoded af =>
      let errors := dataValidation af in
      if negb (is_nil errors)
      then (Done {| StatusCode := StatusUnprocessableEntity; Written := JSONErrors errors |}, h)
      else
        let '((u, err), h) :=
          onRepo (CallAuthorize (af_Username af) (af_Password af))
                 (UserRepo.Authorize (af_Username af) (af_Password af)) h in
        match err with
        | Some e => (Done (http_Error (Error e) StatusBadRequest), h)
        | None =>
            if err_is err ErrNoUser
            then (Done (http_Error ErrUserNotFound StatusUnauthorized), h)
            else if err_is err ErrBadPass
            then (Done (http_Error ErrInvalidPass StatusUnauthorized), h)
            else
              match u with
              | None => (Done (http_Error ErrBadRequest StatusBadRequest), h)
              | Some u => issueSession u (UserAgent r) h
              end
        end
  end.

Definition Register (r : Request RegForm) (h : UserHandler R S)
    : outcome Response * UserHandler R S :=
  match Body r with
  | Unreadable => (Done (http_Error ErrReading StatusBadRequest), h)
  | Malformed => (Done (http_Error ErrBadRequest StatusBadRequest), h)
  | Decoded rf =>
      let errors := dataValidation rf in
      if (0 <? List.length errors)%nat
      then (Done {| StatusCode := StatusUnprocessableEntity; Written := JSONErrors errors |}, h)
      else
        let '((u, err), h) :=
          onRepo (CallMakeUser (rf_Username rf) (rf_Password rf) (rf_FirstName rf)
                               (rf_MiddleName rf) (rf_LastName rf) (rf_Birthday rf)
                               (rf_Telegram rf))
                 (UserRepo.MakeUser (rf_Username rf) (rf_Password rf) (rf_FirstName rf)
                                    (rf_MiddleName rf) (rf_LastName rf) (rf_Birthday rf)
                                    (rf_Telegram rf)) h in
        match err with
        | Some e => (Done (http_Error (Error e) StatusBadRequest), h)
        | None =>
            let errors :=
              if err_is err ErrExists
              then errors ++ [{| location := "body"; param := rf_Username rf;
                                 msg := "already exists" |}]
              else errors in
            if negb (is_nil errors)
            then (Done {| StatusCode := StatusUnprocessableEntity;
                          Written := JSONErrors errors |}, h)
            else
              match u with
              | None => (Panic nilDereference, h)
              | Some u => issueSession u (UserAgent r) h
              end
        end
  end.

(** The guard at the head of the three protected handlers: the scheme
    prefix, then [Sessions.Check] on [token[7:]].  [inl] carries the
    rejection, [inr] the session found. *)
Definition authorizeRequest {Form : Type} (r : Request Form) (h : UserHandler R S)
    : (outcome Response + sessions.Session) * UserHandler R S :=
  let token := Authorization r in
  if negb (HasPrefix token "Bearer ")
  then (inl (Done (http_Error ErrUserNotFound StatusUnauthorized)), h)
  else
    match slice_from token 7 with
    | Panic m => (inl (Panic m), h)
    | Done key =>
        let '(sess, h) := onSessions (CallCheck {| sessions.Token := key |})
                                     (sessions.Check {| sessions.Token := key |}) h in
        match sess with
        | None => (inl (Done (http_Error ErrUserNotFound StatusUnauthorized)), h)
        | Some sess => (inr sess, h)
        end
    end.

Definition GetUsers (r : Request unit) (h : UserHandler R S)
    : outcome Response * UserHandler R S :=
  match authorizeRequest r h with
  | (inl rejected, h) => (rejected, h)
  | (inr _, h) =>
      let '((users, err), h) := onRepo CallGetUsers UserRepo.GetUsers h in
      match err with
      | Some e => (Done (http_Error (Error e) StatusBadRequest), h)
      | None => (Done {| StatusCode := StatusOK; Written := JSONUsers users |}, h)
      end
  end.

(** The body shared by [SubscribeToUser] ([typeOf = 1]) and
    [UnsubscribeToUser] ([typeOf = 0]), which differ in that argument
    alone. *)
Definition subscription (typeOf : Z) (r : Request SubscribeForm) (h : UserHandler R S)
    : outcome Response * UserHandler R S :=
  match authorizeRequest r h with
  | (inl rejected, h) => (rejected, h)
  | (inr _, h) =>
      match Body r with
      | Unreadable => (Done (http_Error ErrReading StatusBadRequest), h)
      | Malformed => (Done (http_Error ErrBadRequest StatusBadRequest), h)
      | Decoded sf =>
          let errors := dataValidation sf in
          if (0 <? List.length errors)%nat
          then (Done {| StatusCode := StatusUnprocessableEntity;
                        Written := JSONErrors errors |}, h)
          else
            let '((_, err), h) :=
              onRepo (CallSubscribe (sf_UserID sf) (sf_SubscriberID sf) typeOf)
                     (UserRepo.Subscribe (sf_UserID sf) (sf_SubscriberID sf) typeOf) h in
            match err with
            | Some _ => (Done (http_Error ErrBadRequest StatusBadRequest), h)
            | None => (Done {| StatusCode := StatusOK; Written := NoBody |}, h)
            end
      end
  end.

Definition SubscribeToUser := subscription 1.
Definition UnsubscribeToUser := subscription 0.

End Handlers.
End handlers.

(** * Package [tgbotapi]: the values the bot exchanges with Telegram *)
Module tgbotapi.

(** [type User struct] *)
Record TgUser : Type := {
  ID : Z;
  UserName : string;
}.

(** [type Chat struct] *)
Record TgChat : Type := { ChatID : Z }.

(** [type Message struct]; [From] is a pointer that Telegram leaves nil
    for channel posts. *)
Record TgMessage : Type := {
  From : option TgUser;
  Chat : TgChat;
  Text : string;
}.

(** [type Update struct] *)
Record Update : Type := { Message : option TgMessage }.

(** [type MessageConfig struct]: the chat addressed and the text, the
    fields [ChatID] and [Text] of Go. *)
Record MessageConfig : Type := {
  To : Z;
  Content : string;
}.

Definition NewMessage (chatID : Z) (text : string) : MessageConfig :=
  {| To := chatID; Content := text |}.

End tgbotapi.

(** * Package [bot] *)
Module bot.
Import tgbotapi.

(** A command handler: the replies to send, and the tables afterwards. *)
Definition Handler : Type := Update -> Database -> outcome (list MessageConfig) * Database.

Section Bot.
Context {P : Platform}.

Definition usersListHandler : Handler := fun update db =>
  let '(users, err) := user.GetUsers db in
  match err with
  | Some _ => (Done [], db)
  | None =>
      match Message update with
      | None =>
          match users with
          | [] => (Done [], db)
          | _ :: _ => (Panic nilDereference, db)
          end
      | Some m =>
          (Done (fold_left
                   (fun messages u =>
                      let str := "ID: " +++ FormatInt (user.ID u) +++
                                 " ФИО: " +++ user.FirstName u +++ " " +++ user.MiddleName u +++
                                 " " +++ user.LastName u +++
                                 " " +++ user.Birthday u +++ " " +++ user.Telegram u in
                      messages ++ [NewMessage (ChatID (Chat m)) str])
                   users []), db)
      end
  end.

Definition startHandler : Handler := fun update db =>
  match Message update with
  | None => (Panic nilDereference, db)
  | Some m =>
      match From m with
      | None => (Panic nilDereference, db)
      | Some from =>
          let '(err, db) := user.UpdateUser (ID from) (UserName from) db in
          match err with
          | Some e => (Done [NewMessage (ChatID (Chat m)) (Error e)], db)
          | None =>
              (Done [NewMessage (ChatID (Chat m))
                       ("Добро пожаловать. Напишите /users, чтобы увидеть всех пользователей." +++ newline +++
                        "Напишите /subscribe или /unsubscribe, а после id для подписки отписки на пользователя." +++ newline +++
                        "Например, /subscribe 1")], db)
          end
      end
  end.

(** The body shared by [subscribeHandler] and [unsubscribeHandler], which
    differ in the offset of the argument, in [typeOf] and in the reply. *)
Definition subscriptionCommand (offset : nat) (typeOf : Z) (reply : string) : Handler :=
  fun update db =>
  match Message update with
  | None => (Panic nilDereference, db)
  | Some m =>
      match slice_from (Text m) offset with
      | Panic p => (Panic p, db)
      | Done argument =>
          let '(userID, err) := Atoi argument in
          match err with
          | Some e => (Done [NewMessage (ChatID (Chat m)) (Error e)], db)
          | None =>
              match From m with
              | None => (Panic nilDereference, db)
              | Some from =>
                  let '(u, err) := user.GetUserByTelegram ("@" +++ UserName from) db in
                  match err with
                  | Some e => (Done [NewMessage (ChatID (Chat m)) (Error e)], db)
                  | None =>
                      match u with
                      | None => (Panic nilDereference, db)
                      | Some u =>
                          let '((subUser, err), db) :=
                            user.Subscribe userID (user.ID u) typeOf db in
                          match err with
                          | Some e => (Done [NewMessage (ChatID (Chat m)) (Error e)], db)
                          | None =>
                              match subUser with
                              | None => (Panic nilDereference, db)
                              | Some subUser =>
                                  (Done [NewMessage (ChatID (Chat m))
                                           (reply +++ user.Telegram subUser)], db)
                              end
                          end
                      end
                  end
              end
          end
      end
  end.

(** [userID, err := strconv.Atoi(update.Message.Text[11:])] *)
Definition subscribeHandler : Handler :=
  subscriptionCommand 11 1 "Вы подписались на ".

(** [userID, err := strconv.Atoi(update.Message.Text[13:])] *)
Definition unsubscribeHandler : Handler :=
  subscriptionCommand 13 0 "Вы отписались от ".

(** [commandHandlers], a Go map: its entries, in no particular order. *)
Definition commandHandlers : list (string * Handler) :=
  [("/subscribe", subscribeHandler);
   ("/unsubscribe", unsubscribeHandler);
   ("/start", startHandler);
   ("/users", usersListHandler)].

(** The loop [for cmd, handler := range commandHandlers] over the entries
    in the order the run time happens to choose. *)
Fixpoint dispatch (text : string) (entries : list (string * Handler)) : Handler :=
  fun update db =>
  match entries with
  | [] => (Done [], db)
  | (cmd, handler) :: rest =>
      if HasPrefix text cmd then handler update db
      else dispatch text rest update db
  end.

(** [updateHandler]; [order] is the iteration order of the map, some
    permutation of [commandHandlers]. *)
Definition updateHandler (order : list (string * Handler)) : Handler :=
  fun update db =>
  match Message update with
  | None => (Done [], db)
  | Some m => dispatch (Text m) order update db
  end.

(** [sendTelegramNotification]: the message handed to [bot.Send] joins the
    outbox; an error of [bot.Send] is printed and dropped. *)
Definition sendTelegramNotification (chatID : Z) (employeeName : string)
    (outbox : list MessageConfig) : list MessageConfig :=
  outbox ++ [NewMessage chatID ("Сегодня день рождения у " +++ employeeName +++
                                "! Поздравьте его!")].

(** One turn of the loop [for _, u := range users]. *)
Definition notifySubscribers (db : Database) (outbox : list MessageConfig) (u : user.User)
    : list MessageConfig :=
  let '(subscribers, err) := user.GetSubscribedUsers (user.ID u) db in
  match err with
  | Some _ => outbox
  | None =>
      fold_left
        (fun outbox sub =>
           let str := user.FirstName u +++ " " +++ user.MiddleName u +++ " " +++ user.LastName u in
           sendTelegramNotification (user.TelegramID sub) str outbox)
        subscribers outbox
  end.

(** [CheckAndSendNotifications]: [today] is [time.Now()]; the result is the
    list of the messages handed to [bot.Send], in order. *)
Definition CheckAndSendNotifications (today : Date) (db : Database) : list MessageConfig :=
  let month := month today in
  let day := day today in
  let '(users, err) := user.GetUserByBirthday month day db in
  match err with
  | Some _ => []
  | None => fold_left (notifySubscribers db) users []
  end.

End Bot.
End bot.

(** * Vocabulary of the statements *)

(** The constraints of [init.sql] that the statements below rely on: [id]
    is the primary key of [users], and [telegramID] is UNIQUE where it is
    not NULL. *)
Record Consistent (db : Database) : Prop := {
  ids_unique : NoDup (map id (users db));
  accounts_unique :
    forall r1 r2 account, In r1 (users db) -> In r2 (users db) ->
      telegramID r1 = Some account -> telegramID r2 = Some account -> r1 = r2;
}.

(** The user value that [GetUsers] and [GetUserByBirthday] make of a row. *)
Definition profile (row : UserRow) : user.User := fst (user.scanProfile row).

(** The user value that [GetSubscribedUsers] makes of a row. *)
Definition subscriber (row : UserRow) : user.User := fst (user.scanSubscriber row).

(** The error of [Scan] on a NULL [telegramID]. *)
Definition ScanNull : error :=
  ErrOther ("sql: Scan error on column index 7, name " +++ quote +++ "telegramID" +++ quote +++
            ": converting NULL to int64 is unsupported").

(** What [Authorize] returns of a row: id, username and password hash. *)
Definition credentials (row : UserRow) : user.User :=
  {| user.ID := id row; user.Username := username row; user.FirstName := "";
     user.MiddleName := ""; user.LastName := ""; user.Password := password row;
     user.Birthday := ""; user.Telegram := ""; user.TelegramID := 0 |}.

(** What [Subscribe] returns of a row: id, username and telegram handle. *)
Definition publicIdentity (row : UserRow) : user.User :=
  {| user.ID := id row; user.Username := username row; user.FirstName := "";
     user.MiddleName := ""; user.LastName := ""; user.Password := "";
     user.Birthday := ""; user.Telegram := telegram row; user.TelegramID := 0 |}.

(** The name a birthday message carries. *)
Definition displayName (u : user.User) : string :=
  user.FirstName u +++ " " +++ user.MiddleName u +++ " " +++ user.LastName u.

(** The text of a birthday message about [name]. *)
Definition greeting (name : string) : string :=
  "Сегодня день рождения у " +++ name +++ "! Поздравьте его!".

(** How many messages of an outbox go to one chat. *)
Definition deliveries (chat : Z) (outbox : list tgbotapi.MessageConfig) : nat :=
  List.length (filter (fun m => tgbotapi.To m =? chat) outbox).

(** How many rows of [subscribes] record that [sub] follows [uid]. *)
Definition subscriptionsOf (db : Database) (uid sub : Z) : nat :=
  List.length (filter (fun s => (userID s =? uid) && (subscriberID s =? sub)) (subscribes db)).

(** [needle] occurs in [text]. *)
Definition Contains (text needle : string) : Prop :=
  exists before after, text = before +++ needle +++ after.

(** The answer of a protected route to a request it does not accept. *)
Definition Unauthorized : handlers.Response :=
  handlers.http_Error handlers.ErrUserNotFound handlers.StatusUnauthorized.

(** The key that a protected route hands to [Sessions.Check]: the header
    without its first seven bytes. *)
Definition bearerKey (header : string) : sessions.SessionID :=
  {| sessions.Token := drop_bytes 7 header |}.

(** The handler after [Sessions.Check key]. *)
Definition afterCheck {R S : Type} {Store : sessions.SessionManagerInterface S}
    (h : handlers.UserHandler R S) (key : sessions.SessionID) : handlers.UserHandler R S :=
  {| handlers.UserRepo := handlers.UserRepo h;
     handlers.Sessions := snd (sessions.Check key (handlers.Sessions h));
     handlers.Journal := handlers.Journal h ++ [handlers.CallCheck key] |}.

Definition isCreate (c : handlers.Call) : bool :=
  match c with
  | handlers.CallCreate _ => true
  | _ => false
  end.

(** * A small deployment for the examples *)
Module Scenario.

Definition sliceText (s : string) (from len : nat) : string := String.substring from len s.

(** A stand-in for the platform: a transparent [bcrypt], the binary
    collation, dates written [YYYY-MM-DD], and texts quoted as they are. *)
#[export] Instance platform : Platform := {
  CompareHashAndPassword hash pass :=
    if String.prefix ("$2a$10$" +++ pass +++ "$") hash then None
    else Some (ErrOther "crypto/bcrypt: hashedPassword is not the hash of the given password");
  GenerateFromPassword salt pass cost :=
    if (72 <? String.length pass)%nat
    then ("", Some (ErrOther "bcrypt: password length exceeds 72 bytes"))
    else ("$2a$" +++ FormatInt cost +++ "$" +++ pass +++ "$" +++ salt, None);
  collate := String.eqb;
  fitsVarchar s := (String.length s <=? 200)%nat;
  toDate s :=
    match parse_digits (sliceText s 0 4) 0, parse_digits (sliceText s 5 2) 0,
          parse_digits (sliceText s 8 2) 0 with
    | Some y, Some m, Some d =>
        if ((String.length s =? 10)%nat && String.eqb (sliceText s 4 1) "-"
            && String.eqb (sliceText s 7 1) "-"
            && (1 <=? m) && (m <=? 12) && (1 <=? d) && (d <=? 31))%bool
        then Some {| year := y; month := m; day := d |}
        else None
    | _, _, _ => None
    end;
  Quote s := quote +++ s +++ quote;
}.

Definition alice : UserRow :=
  {| id := 1; username := "alice"; firstname := "Alice"; middlename := "P";
     lastname := "Liddell"; password := "$2a$10$wonderland$s1";
     birthday := {| year := 1990; month := 6; day := 15 |};
     telegram := "@alice"; telegramID := Some 1001 |}.

Definition bob : UserRow :=
  {| id := 2; username := "bob"; firstname := "Bob"; middlename := "Q";
     lastname := "Builder"; password := "$2a$10$canwefixit$s2";
     birthday := {| year := 1985; month := 1; day := 2 |};
     telegram := "@bob"; telegramID := Some 1002 |}.

(** Carol has registered and never written to the bot: no bound account. *)
Definition carol : UserRow :=
  {| id := 3; username := "carol"; firstname := "Carol"; middlename := "R";
     lastname := "Danvers"; password := "$2a$10$higher$s3";
     birthday := {| year := 1992; month := 3; day := 4 |};
     telegram := "@carol"; telegramID := None |}.

(** Bob follows Alice. *)
Definition db_one : Database :=
  {| users := [alice; bob]; usersAutoInc := 3;
     subscribes := [{| sid := 1; userID := 1; subscriberID := 2 |}];
     subscribesAutoInc := 2 |}.

(** Carol and Bob follow Alice. *)
Definition db_unbound : Database :=
  {| users := [alice; bob; carol]; usersAutoInc := 4;
     subscribes := [{| sid := 1; userID := 1; subscriberID := 3 |};
                    {| sid := 2; userID := 1; subscriberID := 2 |}];
     subscribesAutoInc := 3 |}.

(** Bob has subscribed to Alice twice. *)
Definition db_twice : Database :=
  {| users := [alice; bob]; usersAutoInc := 3;
     subscribes := [{| sid := 1; userID := 1; subscriberID := 2 |};
                    {| sid := 2; userID := 1; subscriberID := 2 |}];
     subscribesAutoInc := 3 |}.

(** Nobody follows anybody. *)
Definition db_quiet : Database :=
  {| users := [alice; bob]; usersAutoInc := 3; subscribes := []; subscribesAutoInc := 1 |}.

Definition june15 : Date := {| year := 2025; month := 6; day := 15 |}.
Definition june16 : Date := {| year := 2025; month := 6; day := 16 |}.

(** Modelled from the spec: the session store of package [sessions], whose
    sources are not part of the repository snapshot.  [Create] keeps the
    session under a token of its own making, [Check] is a point lookup
    that changes nothing. *)
Definition SessionStore : Type := list (string * sessions.Session).

Fixpoint lookupSession (key : string) (store : SessionStore) : option sessions.Session :=
  match store with
  | [] => None
  | (k, sess) :: rest => if String.eqb k key then Some sess else lookupSession key rest
  end.

#[export] Instance store : sessions.SessionManagerInterface SessionStore := {
  Create sess st :=
    let token := "token-" +++ FormatInt (Z.of_nat (List.length st)) in
    ((Some {| sessions.Token := token |}, None), (token, sess) :: st);
  Check key st := (lookupSession (sessions.Token key) st, st);
}.

Definition repo (db : Database) : UserRepo.UserMysqlRepository :=
  {| UserRepo.DB := db; UserRepo.entropy := fun n => "salt" +++ FormatInt (Z.of_nat n);
     UserRepo.drawn := 0 |}.

(** The service with Alice logged in under the token [token-0]. *)
Definition service (db : Database) : handlers.UserHandler UserRepo.UserMysqlRepository SessionStore :=
  {| handlers.UserRepo := repo db;
     handlers.Sessions :=
       [("token-0", {| sessions.ID := 1; sessions.Login := "alice";
                       sessions.Useragent := "curl" |})];
     handlers.Journal := [] |}.

Definition login (name pass : string) : handlers.Request handlers.AuthForm :=
  {| handlers.Authorization := ""; handlers.UserAgent := "curl";
     handlers.Body := handlers.Decoded {| handlers.af_Username := name;
                                          handlers.af_Password := pass |} |}.

Definition subscribeRequest (header : string) (uid sub : Z)
    : handlers.Request handlers.SubscribeForm :=
  {| handlers.Authorization := header; handlers.UserAgent := "curl";
     handlers.Body := handlers.Decoded {| handlers.sf_UserID := uid;
                                          handlers.sf_SubscriberID := sub |} |}.

Definition listRequest (header : string) : handlers.Request unit :=
  {| handlers.Authorization := header; handlers.UserAgent := "curl";
     handlers.Body := handlers.Decoded tt |}.

Definition command (text : string) : tgbotapi.Update :=
  {| tgbotapi.Message :=
       Some {| tgbotapi.From := Some {| tgbotapi.ID := 1002; tgbotapi.UserName := "bob" |};
               tgbotapi.Chat := {| tgbotapi.ChatID := 1002 |};
               tgbotapi.Text := text |} |}.

End Scenario.

(** * Vocabulary of the further statements *)

(** What the statements of the repository keep true of the tables: the ids
    of [users] are unique and below the AUTO_INCREMENT counter, and every
    row of [subscribes] refers to two users (the two FOREIGN KEYs). *)
Record Sound (db : Database) : Prop := {
  sound_ids : NoDup (map id (users db));
  sound_counter : forall row, In row (users db) -> id row < usersAutoInc db;
  sound_references :
    forall e, In e (subscribes db) ->
      (exists u, In u (users db) /\ id u = userID e)
      /\ (exists s, In s (users db) /\ id s = subscriberID e);
}.

(** The row that a subscription of [sub] to [uid] adds to [subscribes]. *)
Definition edge (db : Database) (uid sub : Z) : SubscribeRow :=
  {| sid := subscribesAutoInc db; userID := uid; subscriberID := sub |}.

(** A row of [users] with its [telegramID] set. *)
Definition bindAccount (tid : Z) (r : UserRow) : UserRow :=
  {| id := id r; username := username r; firstname := firstname r;
     middlename := middlename r; lastname := lastname r; password := password r;
     birthday := birthday r; telegram := telegram r; telegramID := Some tid |}.

(** The text of [usersListHandler] about one user. *)
Definition listing (u : user.User) : string :=
  "ID: " +++ FormatInt (user.ID u) +++
  " ФИО: " +++ user.FirstName u +++ " " +++ user.MiddleName u +++
  " " +++ user.LastName u +++
  " " +++ user.Birthday u +++ " " +++ user.Telegram u.

(** The sender of an update, when it has one. *)
Definition sender (update : tgbotapi.Update) : option tgbotapi.TgUser :=
  match tgbotapi.Message update with
  | Some m => tgbotapi.From m
  | None => None
  end.

(** The user that [Register] and [MakeUser] return for a new id. *)
Definition registered (userID : Z) (name : string) : user.User :=
  {| user.ID := userID; user.Username := name; user.FirstName := "";
     user.MiddleName := ""; user.LastName := ""; user.Password := "";
     user.Birthday := ""; user.Telegram := ""; user.TelegramID := 0 |}.

(** The session that [Login] and [Register] ask the store to create. *)
Definition sessionOf (u : user.User) (agent : string) : sessions.Session :=
  {| sessions.ID := user.ID u; sessions.Login := user.Username u;
     sessions.Useragent := agent |}.

Definition isPanic {A : Type} (o : outcome A) : bool :=
  match o with
  | Panic _ => true
  | Done _ => false
  end.

(** * More of the small deployment *)
Module Scenes.

(** A registration request. *)
Definition registerRequest (name pass first last bday handle : string)
    : handlers.Request handlers.RegForm :=
  {| handlers.Authorization := ""; handlers.UserAgent := "curl";
     handlers.Body :=
       handlers.Decoded {| handlers.rf_Username := name; handlers.rf_FirstName := first;
                           handlers.rf_MiddleName := ""; handlers.rf_LastName := last;
                           handlers.rf_Password := pass; handlers.rf_Birthday := bday;
                           handlers.rf_Telegram := handle |} |}.

(** Carol writes [text] to the bot. *)
Definition carolWrites (text : string) : tgbotapi.TgMessage :=
  {| tgbotapi.From := Some {| tgbotapi.ID := 1003; tgbotapi.UserName := "carol" |};
     tgbotapi.Chat := {| tgbotapi.ChatID := 1003 |};
     tgbotapi.Text := text |}.

(** The tables of [Scenario.db_one] after Dave has registered. *)
Definition db_dave : Database :=
  snd (user.MakeUser (P := Scenario.platform) "s" "dave" "pw" "Dave" "" "D" "2000-02-29"
                     "@dave" Scenario.db_one).

End Scenes.

(** * Facts about lists of rows *)
Section Rows.
Context {A : Type}.

Lemma filter_nothing (f : A -> bool) (l : list A) :
  (forall x, In x l -> f x = false) -> filter f l = [].
Proof.
  induction l as [|a l IH]; intros H; simpl; [reflexivity|].
  rewrite (H a (or_introl eq_refl)).
  apply IH. intros x Hx. apply H. now right.
Qed.

Lemma first_match (f : A -> bool) (l : list A) (x : A) :
  In x l -> f x = true ->
  (forall y, In y l -> f y = true -> y = x) ->
  hd_error (filter f l) = Some x.
Proof.
  intros Hin Hfx Huniq.
  assert (Hmem : In x (filter f l)) by (apply filter_In; now split).
  destruct (filter f l) as [|y rest] eqn:E; [contradiction|].
  assert (Hy : In y (filter f l)) by (rewrite E; now left).
  apply filter_In in Hy. destruct Hy as [Hy1 Hy2].
  simpl. f_equal. now apply Huniq.
Qed.

Lemma existsb_false (f : A -> bool) (l : list A) :
  existsb f l = false <-> (forall x, In x l -> f x = false).
Proof.
  split.
  - intros H x Hx. destruct (f x) eqn:E; [|reflexivity].
    assert (existsb f l = true) by (apply existsb_exists; now exists x).
    congruence.
  - intros H. destruct (existsb f l) eqn:E; [|reflexivity].
    apply existsb_exists in E. destruct E as [x [Hx Hfx]].
    rewrite (H x Hx) in Hfx. discriminate.
Qed.

End Rows.

(** * The repository *)
Section RepositoryFacts.
Context {P : Platform}.

Lemma scanRows_profile (rows : list UserRow) (acc : list user.User) :
  user.scanRows user.scanProfile rows acc = (acc ++ map profile rows, None).
Proof.
  revert acc. induction rows as [|row rows IH]; intros acc; simpl.
  - now rewrite app_nil_r.
  - rewrite IH, <- app_assoc. reflexivity.
Qed.

Lemma scanSubscriber_bound (row : UserRow) :
  telegramID row <> None -> snd (user.scanSubscriber row) = None.
Proof.
  unfold user.scanSubscriber. destruct (telegramID row); simpl; congruence.
Qed.

Lemma scanSubscriber_unbound (row : UserRow) :
  telegramID row = None -> snd (user.scanSubscriber row) = Some ScanNull.
Proof.
  unfold user.scanSubscriber. intros ->. reflexivity.
Qed.

Lemma scanRows_bound (rows : list UserRow) (acc : list user.User) :
  Forall (fun row => telegramID row <> None) rows ->
  user.scanRows user.scanSubscriber rows acc = (acc ++ map subscriber rows, None).
Proof.
  revert acc. induction rows as [|row rows IH]; intros acc Hall; simpl.
  - now rewrite app_nil_r.
  - inversion Hall as [|? ? Hrow Hrest]; subst.
    pose proof (scanSubscriber_bound row Hrow) as Hs.
    unfold subscriber at 1.
    destruct (user.scanSubscriber row) as [u err]. simpl in Hs. subst err.
    rewrite (IH _ Hrest), <- app_assoc. reflexivity.
Qed.

Lemma scanRows_unbound (rows : list UserRow) (acc : list user.User) :
  Exists (fun row => telegramID row = None) rows ->
  user.scanRows user.scanSubscriber rows acc = ([], Some ScanNull).
Proof.
  revert acc. induction rows as [|row rows IH]; intros acc Hex.
  - inversion Hex.
  - simpl. destruct (telegramID row) as [account|] eqn:Hrow.
    + pose proof (scanSubscriber_bound row) as Hs.
      destruct (user.scanSubscriber row) as [u err]. simpl in Hs.
      rewrite Hs by congruence.
      apply IH. inversion Hex; subst; [congruence | assumption].
    + pose proof (scanSubscriber_unbound row Hrow) as Hs.
      destruct (user.scanSubscriber row) as [u err]. simpl in Hs. now subst err.
Qed.

Lemma GetSubscribedUsers_unbound (db : Database) (uid : Z) :
  (exists row, In row (user.selectSubscribers db uid) /\ telegramID row = None) ->
  user.GetSubscribedUsers uid db = ([], Some ScanNull).
Proof.
  intros Hex. unfold user.GetSubscribedUsers.
  rewrite scanRows_unbound; [reflexivity|].
  apply Exists_exists. exact Hex.
Qed.

Lemma GetSubscribedUsers_bound (db : Database) (uid : Z) :
  Forall (fun row => telegramID row <> None) (user.selectSubscribers db uid) ->
  user.GetSubscribedUsers uid db =
    match user.selectSubscribers db uid with
    | [] => ([], Some ErrNoUser)
    | rows => (map subscriber rows, None)
    end.
Proof.
  intros Hall. unfold user.GetSubscribedUsers.
  rewrite (scanRows_bound _ _ Hall). simpl.
  destruct (user.selectSubscribers db uid); reflexivity.
Qed.

Lemma GetUserByBirthday_rows (db : Database) (m d : Z) :
  user.GetUserByBirthday m d db =
    match user.selectByBirthday db m d with
    | [] => ([], Some ErrNoUser)
    | rows => (map profile rows, None)
    end.
Proof.
  unfold user.GetUserByBirthday. rewrite scanRows_profile. simpl.
  destruct (user.selectByBirthday db m d); reflexivity.
Qed.

(** C3. [Authorize]: when no row of [users] has the username the result is
    [ErrNoUser]; when the row with the username exists, a password that
    [bcrypt] does not accept for the stored hash gives [ErrBadPass], and an
    accepted one gives the user of that row and no error. *)
Theorem Authorize_outcomes (db : Database) (name pass : string) :
  ((forall row, In row (users db) -> collate (username row) name = false) ->
   user.Authorize name pass db = (None, Some ErrNoUser))
  /\
  (forall row, In row (users db) -> collate (username row) name = true ->
     (forall other, In other (users db) -> collate (username other) name = true ->
        other = row) ->
     (CompareHashAndPassword (password row) pass <> None ->
      user.Authorize name pass db = (None, Some ErrBadPass))
     /\
     (CompareHashAndPassword (password row) pass = None ->
      user.Authorize name pass db = (Some (credentials row), None))).
Proof.
  split.
  - intros Hnone. unfold user.Authorize, user.selectByUsername.
    rewrite filter_nothing; [reflexivity|].
    intros row Hrow. now apply Hnone.
  - intros row Hin Hname Huniq.
    assert (Hq : user.QueryRow (user.selectByUsername db name) = Some row).
    { unfold user.QueryRow, user.selectByUsername.
      apply first_match; assumption. }
    unfold user.Authorize. rewrite Hq. simpl.
    split; intros Hcmp.
    + destruct (CompareHashAndPassword (password row) pass); [reflexivity | congruence].
    + rewrite Hcmp. reflexivity.
Qed.

(** C7. The two listings.  [GetUsers] answers [ErrNoUser] on an empty
    table and the whole list otherwise.  [GetSubscribedUsers] answers
    [ErrNoUser] when nobody follows the user and the whole list when every
    follower has a bound account; as soon as one follower has none, the
    result set is not empty and yet the answer is the error of [Scan], not
    the list. *)
Theorem listings_on_empty_and_nonempty (db : Database) (uid : Z) :
  (users db = [] -> user.GetUsers db = ([], Some ErrNoUser))
  /\ (users db <> [] -> user.GetUsers db = (map profile (users db), None))
  /\ (user.selectSubscribers db uid = [] ->
      user.GetSubscribedUsers uid db = ([], Some ErrNoUser))
  /\ (user.selectSubscribers db uid <> [] ->
      Forall (fun row => telegramID row <> None) (user.selectSubscribers db uid) ->
      user.GetSubscribedUsers uid db = (map subscriber (user.selectSubscribers db uid), None))
  /\ ((exists row, In row (user.selectSubscribers db uid) /\ telegramID row = None) ->
      user.selectSubscribers db uid <> []
      /\ user.GetSubscribedUsers uid db = ([], Some ScanNull)).
Proof.
  repeat split.
  - intros Hempty. unfold user.GetUsers. rewrite scanRows_profile, Hempty. reflexivity.
  - intros Hsome. unfold user.GetUsers. rewrite scanRows_profile. simpl.
    destruct (users db); [congruence | reflexivity].
  - intros Hempty. rewrite GetSubscribedUsers_bound; rewrite Hempty; [reflexivity | constructor].
  - intros Hsome Hall. rewrite (GetSubscribedUsers_bound _ _ Hall).
    destruct (user.selectSubscribers db uid); [congruence | reflexivity].
  - destruct H as [row [Hin _]]. intros Hempty. rewrite Hempty in Hin. contradiction.
  - now apply GetSubscribedUsers_unbound.
Qed.

(** C6 (amended). [Subscribe] with [typeOf = 1]: an unknown [uid] gives
    [ErrNoUser] and leaves the tables as they are; a known [uid] with a
    known subscriber appends the one row [(uid, sub)] to [subscribes],
    touches nothing else and returns the public identity of [uid]; a known
    [uid] with a subscriber that is no user is refused by the foreign key:
    the result is [ErrExists] and the rows of both tables are as they
    were. *)
Theorem Subscribe_outcomes (db : Database) (uid sub : Z) :
  ((forall row, In row (users db) -> id row <> uid) ->
   user.Subscribe uid sub 1 db = ((None, Some ErrNoUser), db))
  /\
  (forall row, In row (users db) -> id row = uid ->
     (forall other, In other (users db) -> id other = uid -> other = row) ->
     ((exists s, In s (users db) /\ id s = sub) ->
      user.Subscribe uid sub 1 db =
        ((Some (publicIdentity row), None),
         {| users := users db; usersAutoInc := usersAutoInc db;
            subscribes := subscribes db ++
              [{| sid := subscribesAutoInc db; userID := uid; subscriberID := sub |}];
            subscribesAutoInc := subscribesAutoInc db + 1 |}))
     /\
     ((forall s, In s (users db) -> id s <> sub) ->
      fst (user.Subscribe uid sub 1 db) = (None, Some ErrExists)
      /\ users (snd (user.Subscribe uid sub 1 db)) = users db
      /\ subscribes (snd (user.Subscribe uid sub 1 db)) = subscribes db)).
Proof.
  split.
  - intros Hnone. unfold user.Subscribe, user.selectByID.
    rewrite filter_nothing; [reflexivity|].
    intros row Hrow. apply Z.eqb_neq. now apply Hnone.
  - intros row Hin Hid Huniq.
    assert (Hq : user.QueryRow (user.selectByID db uid) = Some row).
    { unfold user.QueryRow, user.selectByID. apply first_match.
      - assumption.
      - now apply Z.eqb_eq.
      - intros other Hother Heq. apply Huniq; [assumption | now apply Z.eqb_eq]. }
    assert (Htarget : existsb (fun r => id r =? uid) (users db) = true).
    { apply existsb_exists. exists row. split; [assumption | now apply Z.eqb_eq]. }
    unfold user.Subscribe. rewrite Hq. simpl. unfold user.insertSubscribe.
    rewrite Htarget. simpl.
    split.
    + intros [s [Hs Hsid]].
      assert (Hsub : existsb (fun r => id r =? sub) (users db) = true).
      { apply existsb_exists. exists s. split; [assumption | now apply Z.eqb_eq]. }
      rewrite Hsub. reflexivity.
    + intros Hnone.
      assert (Hsub : existsb (fun r => id r =? sub) (users db) = false).
      { apply existsb_false. intros s Hs. apply Z.eqb_neq. now apply Hnone. }
      rewrite Hsub. destruct (fitsInt uid && fitsInt sub); repeat split.
Qed.

(** C8. A successful [MakeUser] appends exactly one row to [users], and the
    password column of that row holds what [bcrypt.GenerateFromPassword]
    made of the password and the salt, computed before the INSERT; as
    [bcrypt] never returns its input, that is not the plaintext. *)
Theorem MakeUser_stores_hash (salt name pass first middle last bday handle : string)
    (db db' : Database) (u : user.User) :
  (forall s p c h, GenerateFromPassword s p c = (h, None) -> h <> p) ->
  user.MakeUser salt name pass first middle last bday handle db = ((Some u, None), db') ->
  exists hash date,
    GenerateFromPassword salt pass DefaultCost = (hash, None)
    /\ toDate bday = Some date
    /\ users db' = users db ++
         [{| id := user.ID u; username := name; firstname := first; middlename := middle;
             lastname := last; password := hash; birthday := date; telegram := handle;
             telegramID := None |}]
    /\ hash <> pass.
Proof.
  intros Hbcrypt Hmake.
  unfold user.MakeUser, user.hashPassword in Hmake.
  destruct (GenerateFromPassword salt pass DefaultCost) as [hash [e|]] eqn:Hgen;
    [discriminate|].
  unfold user.insertUser in Hmake.
  destruct (toDate bday) as [date|] eqn:Hdate; [|discriminate].
  destruct (forallb fitsVarchar [name; hash; first; middle; last; handle]); [|discriminate].
  match type of Hmake with
  | context [if ?c then _ else _] => destruct c; [|discriminate]
  end.
  inversion Hmake; subst. simpl.
  exists hash, date. repeat split; try reflexivity.
  now apply (Hbcrypt salt pass DefaultCost).
Qed.

End RepositoryFacts.

(** * The notification cycle *)
Section CycleFacts.
Context {P : Platform}.

Lemma same_id_same_row (l : list UserRow) (a b : UserRow) :
  NoDup (map id l) -> In a l -> In b l -> id a = id b -> a = b.
Proof.
  induction l as [|x l IH]; intros Hnd Ha Hb Hid; [contradiction|].
  simpl in Hnd. apply NoDup_cons_iff in Hnd. destruct Hnd as [Hx Hnd].
  destruct Ha as [<-|Ha], Hb as [<-|Hb].
  - reflexivity.
  - exfalso. apply Hx. rewrite Hid. now apply in_map.
  - exfalso. apply Hx. rewrite <- Hid. now apply in_map.
  - now apply IH.
Qed.

Lemma filter_by_id (l : list UserRow) (s : UserRow) :
  NoDup (map id l) -> In s l -> filter (fun r => id r =? id s) l = [s].
Proof.
  induction l as [|x l IH]; intros Hnd Hs; [contradiction|].
  simpl in Hnd. apply NoDup_cons_iff in Hnd. destruct Hnd as [Hx Hnd].
  simpl. destruct Hs as [<-|Hs].
  - rewrite Z.eqb_refl. f_equal. apply filter_nothing.
    intros r Hr. apply Z.eqb_neq. intros Heq. apply Hx. rewrite <- Heq. now apply in_map.
  - destruct (id x =? id s) eqn:E.
    + apply Z.eqb_eq in E. exfalso. apply Hx. rewrite E. now apply in_map.
    + now apply IH.
Qed.

Lemma sends_append (name : string) (subs : list user.User)
    (outbox : list tgbotapi.MessageConfig) :
  fold_left (fun outbox sub => bot.sendTelegramNotification (user.TelegramID sub) name outbox)
            subs outbox
  = outbox ++ map (fun sub => tgbotapi.NewMessage (user.TelegramID sub) (greeting name)) subs.
Proof.
  revert outbox. induction subs as [|sub subs IH]; intros outbox; simpl.
  - now rewrite app_nil_r.
  - rewrite IH. unfold bot.sendTelegramNotification. rewrite <- app_assoc. reflexivity.
Qed.

Lemma notifySubscribers_append (db : Database) (outbox : list tgbotapi.MessageConfig)
    (u : user.User) :
  bot.notifySubscribers db outbox u = outbox ++ bot.notifySubscribers db [] u.
Proof.
  unfold bot.notifySubscribers.
  destruct (user.GetSubscribedUsers (user.ID u) db) as [subs [e|]].
  - now rewrite app_nil_r.
  - rewrite !sends_append. reflexivity.
Qed.

Lemma cycle_append (db : Database) (us : list user.User)
    (outbox : list tgbotapi.MessageConfig) :
  fold_left (bot.notifySubscribers db) us outbox
  = outbox ++ flat_map (bot.notifySubscribers db []) us.
Proof.
  revert outbox. induction us as [|u us IH]; intros outbox; simpl.
  - now rewrite app_nil_r.
  - rewrite IH, notifySubscribers_append, <- app_assoc. reflexivity.
Qed.

Lemma notifySubscribers_bound (db : Database) (u : user.User) :
  Forall (fun row => telegramID row <> None) (user.selectSubscribers db (user.ID u)) ->
  bot.notifySubscribers db [] u
  = map (fun row => tgbotapi.NewMessage (user.TelegramID (subscriber row))
                                        (greeting (displayName u)))
        (user.selectSubscribers db (user.ID u)).
Proof.
  intros Hall. unfold bot.notifySubscribers.
  rewrite (GetSubscribedUsers_bound _ _ Hall).
  destruct (user.selectSubscribers db (user.ID u)) as [|row rows]; [reflexivity|].
  rewrite sends_append, map_map. reflexivity.
Qed.

Lemma subscriber_account (row : UserRow) (account : Z) :
  telegramID row = Some account -> user.TelegramID (subscriber row) = account.
Proof.
  unfold subscriber, user.scanSubscriber. intros ->. reflexivity.
Qed.

Lemma deliveries_by_rows (account : Z) (text : string) (rows : list UserRow) :
  Forall (fun row => telegramID row <> None) rows ->
  deliveries account
    (map (fun row => tgbotapi.NewMessage (user.TelegramID (subscriber row)) text) rows)
  = List.length (filter (fun row => user.sameTelegramID (telegramID row) account) rows).
Proof.
  unfold deliveries.
  induction rows as [|row rows IH]; intros Hall; [reflexivity|].
  inversion Hall as [|? ? Hrow Hrest]; subst.
  simpl. destruct (telegramID row) as [a|] eqn:Ha; [|congruence].
  rewrite (subscriber_account row a Ha). simpl.
  destruct (a =? account); simpl; rewrite (IH Hrest); reflexivity.
Qed.

Lemma followers_with_account (db : Database) (s : UserRow) (account k : Z) :
  Consistent db -> In s (users db) -> telegramID s = Some account ->
  List.length (filter (fun row => user.sameTelegramID (telegramID row) account)
                      (filter (fun r => id r =? k) (users db)))
  = if k =? id s then 1%nat else 0%nat.
Proof.
  intros [Hids Haccounts] Hs Htid.
  destruct (k =? id s) eqn:E.
  - apply Z.eqb_eq in E. subst k. rewrite (filter_by_id _ _ Hids Hs).
    simpl. rewrite Htid. simpl. rewrite Z.eqb_refl. reflexivity.
  - rewrite filter_nothing; [reflexivity|].
    intros r Hr. apply filter_In in Hr. destruct Hr as [Hr Hk].
    apply Z.eqb_eq in Hk.
    destruct (telegramID r) as [a|] eqn:Ha; [|reflexivity].
    simpl. destruct (a =? account) eqn:Ea; [|reflexivity].
    apply Z.eqb_eq in Ea. subst a.
    assert (r = s) by (eapply Haccounts; eassumption).
    subst r. apply Z.eqb_neq in E. congruence.
Qed.

Lemma deliveries_by_subscriptions (db : Database) (s : UserRow) (account uid : Z) :
  Consistent db -> In s (users db) -> telegramID s = Some account ->
  List.length (filter (fun row => user.sameTelegramID (telegramID row) account)
                      (user.selectSubscribers db uid))
  = subscriptionsOf db uid (id s).
Proof.
  intros Hdb Hs Htid. unfold user.selectSubscribers, subscriptionsOf.
  induction (subscribes db) as [|e es IH]; [reflexivity|].
  simpl. destruct (userID e =? uid); simpl; [|exact IH].
  rewrite filter_app, length_app, IH.
  rewrite (followers_with_account db s account (subscriberID e) Hdb Hs Htid).
  destruct (subscriberID e =? id s); reflexivity.
Qed.

(** C1. One follower without a bound account silences the whole turn of
    the birthday user: [GetSubscribedUsers] fails on the NULL, the loop
    takes its [continue], and no follower of that user is written to. *)
Theorem unbound_follower_silences_turn (db : Database)
    (outbox : list tgbotapi.MessageConfig) (u : user.User) :
  (exists row, In row (user.selectSubscribers db (user.ID u)) /\ telegramID row = None) ->
  bot.notifySubscribers db outbox u = outbox.
Proof.
  intros Hex. unfold bot.notifySubscribers.
  rewrite (GetSubscribedUsers_unbound _ _ Hex). reflexivity.
Qed.

(** C2 (amended). A user is selected by the cycle exactly on the days whose
    month and day are those of the stored birth date, whatever the years;
    the messages of a cycle are those of the selected users, one after the
    other; and a selected user whose followers all have a bound account
    yields messages that all carry the user's display name, one to a
    follower's account for every row of [subscribes] that records the
    follower: a follower recorded [k] times is written to [k] times. *)
Theorem birthday_cycle (db : Database) (row : UserRow) :
  Consistent db -> In row (users db) ->
  (forall today,
     In (profile row) (fst (user.GetUserByBirthday (month today) (day today) db))
     <-> (month today = month (birthday row) /\ day today = day (birthday row)))
  /\
  (forall today,
     bot.CheckAndSendNotifications today db
     = flat_map (bot.notifySubscribers db [])
                (fst (user.GetUserByBirthday (month today) (day today) db)))
  /\
  (Forall (fun s => telegramID s <> None) (user.selectSubscribers db (id row)) ->
   (forall m, In m (bot.notifySubscribers db [] (profile row)) ->
      tgbotapi.Content m = greeting (displayName (profile row))
      /\ Contains (tgbotapi.Content m) (displayName (profile row)))
   /\
   (forall s account, In s (users db) -> telegramID s = Some account ->
      deliveries account (bot.notifySubscribers db [] (profile row))
      = subscriptionsOf db (id row) (id s))).
Proof.
  intros Hdb Hrow. split; [|split].
  - intros today. rewrite GetUserByBirthday_rows.
    assert (Hsel : In (profile row)
                      (map profile (user.selectByBirthday db (month today) (day today)))
                   <-> month today = month (birthday row) /\ day today = day (birthday row)).
    { rewrite in_map_iff. unfold user.selectByBirthday. split.
      - intros [r [Hprof Hr]]. apply filter_In in Hr. destruct Hr as [Hr Hdate].
        assert (r = row).
        { apply (same_id_same_row (users db)); try assumption.
          - apply Hdb.
          - change (user.ID (profile r) = user.ID (profile row)). now rewrite Hprof. }
        subst r. apply andb_true_iff in Hdate. destruct Hdate as [Hm Hd].
        apply Z.eqb_eq in Hm, Hd. now split.
      - intros [Hm Hd]. exists row. split; [reflexivity|].
        apply filter_In. split; [assumption|].
        apply andb_true_iff. split; apply Z.eqb_eq; congruence. }
    destruct (user.selectByBirthday db (month today) (day today)) eqn:E; exact Hsel.
  - intros today. unfold bot.CheckAndSendNotifications.
    destruct (user.GetUserByBirthday (month today) (day today) db) as [us [e|]] eqn:E.
    + rewrite GetUserByBirthday_rows in E.
      destruct (user.selectByBirthday db (month today) (day today)); inversion E; reflexivity.
    + simpl. now rewrite cycle_append.
  - intros Hall.
    change (id row) with (user.ID (profile row)) in Hall.
    rewrite (notifySubscribers_bound _ _ Hall). split.
    + intros m Hm. apply in_map_iff in Hm. destruct Hm as [r [<- _]]. simpl.
      split; [reflexivity|].
      exists "Сегодня день рождения у ", "! Поздравьте его!". reflexivity.
    + intros s account Hs Htid.
      rewrite (deliveries_by_rows _ _ _ Hall).
      now apply deliveries_by_subscriptions.
Qed.

End CycleFacts.

(** * The command dispatch of the bot *)
Section DispatchFacts.
Context {P : Platform}.

Lemma dispatch_find (text : string) (entries : list (string * bot.Handler))
    (update : tgbotapi.Update) (db : Database) :
  bot.dispatch text entries update db =
    match find (fun entry => HasPrefix text (fst entry)) entries with
    | Some entry => snd entry update db
    | None => (Done [], db)
    end.
Proof.
  induction entries as [|[cmd handler] rest IH]; simpl; [reflexivity|].
  destruct (HasPrefix text cmd); [reflexivity | exact IH].
Qed.

Lemma find_in_any_order {A : Type} (f : A -> bool) (order l : list A) (x : A) :
  Permutation order l -> In x l -> f x = true ->
  (forall y, In y l -> f y = true -> y = x) ->
  find f order = Some x.
Proof.
  intros Hperm Hx Hfx Huniq.
  destruct (find f order) as [y|] eqn:E.
  - apply find_some in E. destruct E as [Hy Hfy].
    f_equal. apply Huniq; [|assumption].
    now apply (Permutation_in _ Hperm).
  - pose proof (find_none _ _ E x) as Hnone.
    rewrite Hnone in Hfx; [discriminate|].
    apply (Permutation_in _ (Permutation_sym Hperm)). assumption.
Qed.

(** C9. A message whose text is exactly [/subscribe] or exactly
    [/unsubscribe] makes the bot panic, in whatever order the map of the
    handlers is walked: the handler found slices the text at 11 (at 13),
    one past its 10 (12) bytes, and no reply is produced. *)
Theorem bare_command_panics (order : list (string * bot.Handler)) (db : Database)
    (from : option tgbotapi.TgUser) (chat : tgbotapi.TgChat) :
  Permutation order bot.commandHandlers ->
  bot.updateHandler order
    {| tgbotapi.Message :=
         Some {| tgbotapi.From := from; tgbotapi.Chat := chat;
                 tgbotapi.Text := "/subscribe" |} |} db
  = (Panic "runtime error: slice bounds out of range [11:10]", db)
  /\
  bot.updateHandler order
    {| tgbotapi.Message :=
         Some {| tgbotapi.From := from; tgbotapi.Chat := chat;
                 tgbotapi.Text := "/unsubscribe" |} |} db
  = (Panic "runtime error: slice bounds out of range [13:12]", db).
Proof.
  intros Hperm. unfold bot.updateHandler. simpl. rewrite !dispatch_find.
  split.
  - rewrite (find_in_any_order _ order bot.commandHandlers
               ("/subscribe", bot.subscribeHandler) Hperm).
    + reflexivity.
    + simpl. auto.
    + reflexivity.
    + intros y [<-|[<-|[<-|[<-|[]]]]] Hy; try reflexivity; discriminate Hy.
  - rewrite (find_in_any_order _ order bot.commandHandlers
               ("/unsubscribe", bot.unsubscribeHandler) Hperm).
    + reflexivity.
    + simpl. auto.
    + reflexivity.
    + intros y [<-|[<-|[<-|[<-|[]]]]] Hy; try reflexivity; discriminate Hy.
Qed.

End DispatchFacts.

(** * The HTTP handlers *)
Section HandlerFacts.
Context {R S : Type} {Repo : UserRepo.UserRepo R} {Store : sessions.SessionManagerInterface S}.

Lemma issueSession_status (u : user.User) (agent : string) (h : handlers.UserHandler R S)
    (resp : handlers.Response) :
  fst (handlers.issueSession u agent h) = Done resp ->
  handlers.StatusCode resp = handlers.StatusInternalServerError
  \/ handlers.StatusCode resp = handlers.StatusOK.
Proof.
  unfold handlers.issueSession, handlers.onSessions.
  destruct (sessions.Create _ _) as [[sess [e|]] store]; simpl.
  - intros H. inversion H. now left.
  - destruct sess; simpl; intros H; inversion H. now right.
Qed.

Lemma authorizeRequest_no_prefix {Form : Type} (r : handlers.Request Form)
    (h : handlers.UserHandler R S) :
  HasPrefix (handlers.Authorization r) "Bearer " = false ->
  handlers.authorizeRequest r h = (inl (Done Unauthorized), h).
Proof.
  intros Hprefix. unfold handlers.authorizeRequest. rewrite Hprefix. reflexivity.
Qed.

Lemma prefix_length (pre s : string) :
  String.prefix pre s = true -> (String.length pre <= String.length s)%nat.
Proof.
  revert s. induction pre as [|c pre IH]; intros s H; simpl; [lia|].
  destruct s as [|d s]; simpl in H; [discriminate|].
  destruct (Ascii.ascii_dec c d); [|discriminate].
  simpl. apply IH in H. lia.
Qed.

Lemma authorizeRequest_checked {Form : Type} (r : handlers.Request Form)
    (h : handlers.UserHandler R S) :
  HasPrefix (handlers.Authorization r) "Bearer " = true ->
  handlers.authorizeRequest r h =
    (match fst (sessions.Check (bearerKey (handlers.Authorization r)) (handlers.Sessions h)) with
     | None => inl (Done Unauthorized)
     | Some sess => inr sess
     end,
     afterCheck h (bearerKey (handlers.Authorization r))).
Proof.
  intros Hprefix. unfold afterCheck. set (key := bearerKey (handlers.Authorization r)).
  unfold handlers.authorizeRequest. rewrite Hprefix. simpl.
  unfold slice_from.
  pose proof (prefix_length _ _ Hprefix) as Hlen. simpl in Hlen.
  destruct (7 <=? String.length (handlers.Authorization r))%nat eqn:E;
    [|apply Nat.leb_gt in E; lia].
  unfold handlers.onSessions. fold (bearerKey (handlers.Authorization r)). fold key.
  destruct (sessions.Check key (handlers.Sessions h)) as [[sess|] store]; reflexivity.
Qed.

(** C4 (amended). The three protected routes ([GetUsers], and
    [SubscribeToUser] and [UnsubscribeToUser], which are [subscription 1]
    and [subscription 0]): a header without the prefix [Bearer ] is answered
    401 with no call at all; a header whose key [Sessions.Check] does not
    know is answered 401 after that one call, the repository untouched;
    otherwise the request passes the guard, and the session found is not
    passed on.  The listing then calls [GetUsers].  A subscription then
    reads its body: a body that cannot be read or decoded is answered 400
    and a body with a zero id 422, both without a call of the repository;
    a body with both ids present makes the one call of [Subscribe], with
    the two ids of the body. *)
Theorem protected_routes (h : handlers.UserHandler R S) (typeOf : Z)
    (lr : handlers.Request unit) (sr : handlers.Request handlers.SubscribeForm) :
  (HasPrefix (handlers.Authorization lr) "Bearer " = false ->
   handlers.GetUsers lr h = (Done Unauthorized, h))
  /\
  (HasPrefix (handlers.Authorization sr) "Bearer " = false ->
   handlers.subscription typeOf sr h = (Done Unauthorized, h))
  /\
  (HasPrefix (handlers.Authorization lr) "Bearer " = true ->
   fst (sessions.Check (bearerKey (handlers.Authorization lr)) (handlers.Sessions h)) = None ->
   handlers.GetUsers lr h
   = (Done Unauthorized, afterCheck h (bearerKey (handlers.Authorization lr))))
  /\
  (HasPrefix (handlers.Authorization sr) "Bearer " = true ->
   fst (sessions.Check (bearerKey (handlers.Authorization sr)) (handlers.Sessions h)) = None ->
   handlers.subscription typeOf sr h
   = (Done Unauthorized, afterCheck h (bearerKey (handlers.Authorization sr))))
  /\
  (HasPrefix (handlers.Authorization lr) "Bearer " = true ->
   fst (sessions.Check (bearerKey (handlers.Authorization lr)) (handlers.Sessions h)) <> None ->
   handlers.Journal (snd (handlers.GetUsers lr h))
   = handlers.Journal h ++ [handlers.CallCheck (bearerKey (handlers.Authorization lr));
                            handlers.CallGetUsers])
  /\
  (HasPrefix (handlers.Authorization sr) "Bearer " = true ->
   fst (sessions.Check (bearerKey (handlers.Authorization sr)) (handlers.Sessions h)) <> None ->
   forall sf, handlers.Body sr = handlers.Decoded sf ->
     handlers.sf_UserID sf <> 0 -> handlers.sf_SubscriberID sf <> 0 ->
     handlers.Journal (snd (handlers.subscription typeOf sr h))
     = handlers.Journal h ++
         [handlers.CallCheck (bearerKey (handlers.Authorization sr));
          handlers.CallSubscribe (handlers.sf_UserID sf) (handlers.sf_SubscriberID sf) typeOf])
  /\
  (HasPrefix (handlers.Authorization sr) "Bearer " = true ->
   fst (sessions.Check (bearerKey (handlers.Authorization sr)) (handlers.Sessions h)) <> None ->
   (handlers.Body sr = handlers.Unreadable ->
    handlers.subscription typeOf sr h
    = (Done (handlers.http_Error handlers.ErrReading handlers.StatusBadRequest),
       afterCheck h (bearerKey (handlers.Authorization sr))))
   /\
   (handlers.Body sr = handlers.Malformed ->
    handlers.subscription typeOf sr h
    = (Done (handlers.http_Error handlers.ErrBadRequest handlers.StatusBadRequest),
       afterCheck h (bearerKey (handlers.Authorization sr))))
   /\
   (forall sf, handlers.Body sr = handlers.Decoded sf ->
      handlers.sf_UserID sf = 0 \/ handlers.sf_SubscriberID sf = 0 ->
      handlers.subscription typeOf sr h
      = (Done {| handlers.StatusCode := handlers.StatusUnprocessableEntity;
                 handlers.Written := handlers.JSONErrors (handlers.dataValidation sf) |},
         afterCheck h (bearerKey (handlers.Authorization sr))))).
Proof.
  repeat match goal with |- _ /\ _ => split end.
  - intros Hprefix. unfold handlers.GetUsers.
    now rewrite (authorizeRequest_no_prefix _ _ Hprefix).
  - intros Hprefix. unfold handlers.subscription.
    now rewrite (authorizeRequest_no_prefix _ _ Hprefix).
  - intros Hprefix Hcheck. unfold handlers.GetUsers.
    now rewrite (authorizeRequest_checked _ _ Hprefix), Hcheck.
  - intros Hprefix Hcheck. unfold handlers.subscription.
    now rewrite (authorizeRequest_checked _ _ Hprefix), Hcheck.
  - intros Hprefix Hcheck. unfold handlers.GetUsers.
    rewrite (authorizeRequest_checked _ _ Hprefix).
    destruct (fst (sessions.Check _ _)) as [sess|]; [|congruence].
    unfold handlers.onRepo.
    destruct (UserRepo.GetUsers _) as [[us [e|]] repo']; simpl;
      rewrite <- app_assoc; reflexivity.
  - intros Hprefix Hcheck sf Hbody Hu Hs. unfold handlers.subscription.
    rewrite (authorizeRequest_checked _ _ Hprefix).
    destruct (fst (sessions.Check _ _)) as [sess|]; [|congruence].
    rewrite Hbody.
    unfold handlers.dataValidation, handlers.requiredFields, handlers.SubscribeForm_Validated.
    apply Z.eqb_neq in Hu, Hs. simpl. rewrite Hu, Hs. simpl.
    unfold handlers.onRepo.
    destruct (UserRepo.Subscribe _ _ _ _) as [[u [e|]] repo']; simpl;
      rewrite <- app_assoc; reflexivity.
  - intros Hprefix Hcheck.
    assert (Hguard : handlers.authorizeRequest sr h
                     = (match fst (sessions.Check (bearerKey (handlers.Authorization sr))
                                                  (handlers.Sessions h)) with
                        | None => inl (Done Unauthorized)
                        | Some sess => inr sess
                        end, afterCheck h (bearerKey (handlers.Authorization sr))))
      by apply (authorizeRequest_checked _ _ Hprefix).
    unfold handlers.subscription. rewrite Hguard.
    destruct (fst (sessions.Check _ _)) as [sess|]; [|congruence].
    split; [|split].
    + intros Hbody. now rewrite Hbody.
    + intros Hbody. now rewrite Hbody.
    + intros sf Hbody Hzero. rewrite Hbody.
      assert (Hsome : (0 <? List.length (handlers.dataValidation sf))%nat = true).
      { unfold handlers.dataValidation, handlers.requiredFields,
          handlers.SubscribeForm_Validated.
        cbn [filter map snd fst].
        destruct Hzero as [H0 | H0]; apply Z.eqb_eq in H0; rewrite H0.
        - reflexivity.
        - destruct (handlers.sf_UserID sf =? 0); reflexivity. }
      now rewrite Hsome.
Qed.

(** C5. A [Login] whose credentials [Authorize] refuses never reaches
    [Sessions.Create]: the session store is what it was, and the calls the
    handler has added to its journal contain no [Create]. *)
Theorem Login_failure_creates_no_session (r : handlers.Request handlers.AuthForm)
    (h : handlers.UserHandler R S) (af : handlers.AuthForm)
    (u : option user.User) (e : error) (repo' : R) :
  handlers.Body r = handlers.Decoded af ->
  UserRepo.Authorize (handlers.af_Username af) (handlers.af_Password af) (handlers.UserRepo h)
    = ((u, Some e), repo') ->
  handlers.Sessions (snd (handlers.Login r h)) = handlers.Sessions h
  /\ exists calls,
       handlers.Journal (snd (handlers.Login r h)) = handlers.Journal h ++ calls
       /\ existsb isCreate calls = false.
Proof.
  intros Hbody Hauth. unfold handlers.Login. rewrite Hbody.
  destruct (negb (handlers.is_nil (handlers.dataValidation af))).
  - simpl. split; [reflexivity|]. exists []. now rewrite app_nil_r.
  - unfold handlers.onRepo. rewrite Hauth. simpl. split; [reflexivity|].
    exists [handlers.CallAuthorize (handlers.af_Username af) (handlers.af_Password af)].
    split; reflexivity.
Qed.

(** C10 (amended). [Login] never answers 401: the two comparisons with
    [ErrNoUser] and [ErrBadPass] come after the return on [err != nil] and
    see a nil error.  Whenever [Authorize] returns an error, the answer is
    400 with the message of that error as its text; so an unknown user and
    a wrong password get the same status and different texts. *)
Theorem Login_failure_is_bad_request :
  (forall (r : handlers.Request handlers.AuthForm) (h : handlers.UserHandler R S) resp,
     fst (handlers.Login r h) = Done resp ->
     handlers.StatusCode resp <> handlers.StatusUnauthorized)
  /\
  (forall (r : handlers.Request handlers.AuthForm) (h : handlers.UserHandler R S)
          af u e repo',
     handlers.Body r = handlers.Decoded af ->
     handlers.dataValidation af = [] ->
     UserRepo.Authorize (handlers.af_Username af) (handlers.af_Password af)
                        (handlers.UserRepo h) = ((u, Some e), repo') ->
     fst (handlers.Login r h)
     = Done (handlers.http_Error (Error e) handlers.StatusBadRequest))
  /\
  handlers.http_Error (Error ErrNoUser) handlers.StatusBadRequest
  <> handlers.http_Error (Error ErrBadPass) handlers.StatusBadRequest.
Proof.
  split; [|split].
  - intros r h resp. unfold handlers.Login.
    destruct (handlers.Body r) as [| |af]; simpl.
    + intros H. inversion H. simpl. discriminate.
    + intros H. inversion H. simpl. discriminate.
    + destruct (negb (handlers.is_nil (handlers.dataValidation af))); simpl.
      * intros H. inversion H. simpl. discriminate.
      * unfold handlers.onRepo.
        destruct (UserRepo.Authorize _ _ _) as [[u [e|]] repo']; simpl.
        -- intros H. inversion H. simpl. discriminate.
        -- destruct u as [u|]; simpl.
           ++ intros H. apply issueSession_status in H. destruct H as [-> | ->]; discriminate.
           ++ intros H. inversion H. simpl. discriminate.
  - intros r h af u e repo' Hbody Hvalid Hauth. unfold handlers.Login.
    rewrite Hbody, Hvalid. simpl. unfold handlers.onRepo. rewrite Hauth. reflexivity.
  - discriminate.
Qed.

End HandlerFacts.

(** * The statements at work on the small deployment *)
Section Examples.
Import Scenario.

Lemma length_append (a b : string) :
  String.length (a +++ b) = (String.length a + String.length b)%nat.
Proof.
  induction a as [|c a IH]; simpl; [reflexivity | now rewrite IH].
Qed.

Lemma platform_never_echoes (s p : string) (c : Z) (h : string) :
  GenerateFromPassword s p c = (h, None) -> h <> p.
Proof.
  simpl. destruct (72 <? String.length p)%nat; [discriminate|].
  intros H Heq. inversion H as [Hh]. rewrite Heq in Hh.
  apply (f_equal String.length) in Hh.
  simpl in Hh. rewrite !length_append in Hh. simpl in Hh. rewrite length_append in Hh.
  lia.
Qed.

Lemma db_one_consistent : Consistent db_one.
Proof.
  split.
  - simpl. repeat constructor; simpl; intuition discriminate.
  - intros r1 r2 account [<-|[<-|[]]] [<-|[<-|[]]] H1 H2; simpl in *; congruence.
Qed.

(** C3, witness: an unknown name, a wrong password and the right one. *)
Lemma Authorize_outcomes_witness :
  user.Authorize "zed" "x" db_one = (None, Some ErrNoUser)
  /\ user.Authorize "alice" "x" db_one = (None, Some ErrBadPass)
  /\ user.Authorize "alice" "wonderland" db_one = (Some (credentials alice), None).
Proof.
  destruct (Authorize_outcomes db_one "zed" "x") as [Hnone _].
  destruct (Authorize_outcomes db_one "alice" "x") as [_ Hbad].
  destruct (Authorize_outcomes db_one "alice" "wonderland") as [_ Hgood].
  assert (Honly : forall other, In other (users db_one) ->
                    collate (username other) "alice" = true -> other = alice).
  { intros other [<-|[<-|[]]] H; [reflexivity | discriminate H]. }
  split; [|split].
  - apply Hnone. intros row [<-|[<-|[]]]; reflexivity.
  - apply (Hbad alice); [now left | reflexivity | exact Honly | discriminate].
  - apply (Hgood alice); [now left | reflexivity | exact Honly | reflexivity].
Defined.

(** C7, witness: Alice is followed by Carol, who has no bound account, and
    by Bob, who has one; asking for her followers yields the error. *)
Lemma listings_on_empty_and_nonempty_witness :
  user.selectSubscribers db_unbound 1 = [carol; bob]
  /\ user.GetSubscribedUsers 1 db_unbound = ([], Some ScanNull).
Proof.
  split; [reflexivity|].
  destruct (listings_on_empty_and_nonempty db_unbound 1) as (_ & _ & _ & _ & Hnull).
  apply Hnull. exists carol. split; [now left | reflexivity].
Defined.

(** C1, witness: on Alice's birthday, with Carol unbound and Bob bound
    among her followers, the cycle writes to nobody, Bob included. *)
Lemma unbound_follower_silences_turn_witness :
  bot.CheckAndSendNotifications june15 db_unbound = []
  /\ deliveries 1002 (bot.CheckAndSendNotifications june15 db_unbound) = 0%nat.
Proof.
  assert (H : bot.CheckAndSendNotifications june15 db_unbound = []).
  { change (bot.CheckAndSendNotifications june15 db_unbound)
      with (bot.notifySubscribers db_unbound [] (profile alice)).
    apply unbound_follower_silences_turn.
    exists carol. split; [now left | reflexivity]. }
  rewrite H. split; reflexivity.
Defined.

(** C2, counterexample: Bob has subscribed to Alice twice, and on her
    birthday he is written to twice, not once. *)
Lemma twice_subscribed_twice_notified :
  In alice (users db_twice)
  /\ In bob (users db_twice) /\ telegramID bob = Some 1002
  /\ (0 < subscriptionsOf db_twice (id alice) (id bob))%nat
  /\ deliveries 1002 (bot.CheckAndSendNotifications june15 db_twice) = 2%nat
  /\ deliveries 1002 (bot.CheckAndSendNotifications june15 db_twice) <> 1%nat.
Proof.
  split; [simpl; auto|]. split; [simpl; auto|]. split; [reflexivity|].
  split; [vm_compute; lia|]. split; [reflexivity|].
  vm_compute. discriminate.
Qed.

(** C2, witness: Alice was born on 1990-06-15 and Bob follows her; on
    2025-06-15 Bob's account gets one message, on 2025-06-16 nobody gets
    any. *)
Lemma birthday_cycle_witness :
  deliveries 1002 (bot.CheckAndSendNotifications june15 db_one) = 1%nat
  /\ bot.CheckAndSendNotifications june16 db_one = [].
Proof.
  destruct (birthday_cycle db_one alice db_one_consistent (or_introl eq_refl))
    as (_ & Hcycle & Hturn).
  split.
  - rewrite (Hcycle june15).
    change (deliveries 1002 (bot.notifySubscribers db_one [] (profile alice)) = 1%nat).
    destruct Hturn as [_ Hcount].
    + simpl. repeat constructor. discriminate.
    + rewrite (Hcount bob 1002); [reflexivity | simpl; auto | reflexivity].
  - rewrite (Hcycle june16). reflexivity.
Defined.

(** C6, counterexample: user 1 exists, and yet subscribing the unknown 999
    to user 1 inserts nothing and returns [ErrExists]. *)
Lemma Subscribe_unknown_subscriber :
  (exists row, In row (users db_one) /\ id row = 1)
  /\ fst (user.Subscribe 1 999 1 db_one) = (None, Some ErrExists)
  /\ subscribes (snd (user.Subscribe 1 999 1 db_one)) = subscribes db_one.
Proof.
  split; [exists alice; split; [now left | reflexivity] | split; reflexivity].
Qed.

(** C6, witness: Alice subscribes to Bob; nobody can subscribe to user 9. *)
Lemma Subscribe_outcomes_witness :
  user.Subscribe 9 1 1 db_one = ((None, Some ErrNoUser), db_one)
  /\ fst (user.Subscribe 2 1 1 db_one) = (Some (publicIdentity bob), None)
  /\ subscribes (snd (user.Subscribe 2 1 1 db_one))
     = subscribes db_one ++ [{| sid := 2; userID := 2; subscriberID := 1 |}].
Proof.
  destruct (Subscribe_outcomes db_one 9 1) as [Hnone _].
  destruct (Subscribe_outcomes db_one 2 1) as [_ Hsome].
  split.
  - apply Hnone. intros row [<-|[<-|[]]]; discriminate.
  - destruct (Hsome bob) as [Hok _].
    + simpl; auto.
    + reflexivity.
    + intros other [<-|[<-|[]]] H; [discriminate H | reflexivity].
    + rewrite Hok; [split; reflexivity|].
      exists alice. split; [now left | reflexivity].
Defined.

(** C8, witness: Dave registers with the password [pw]; his row holds the
    hash. *)
Lemma MakeUser_stores_hash_witness :
  let registered := user.MakeUser "s" "dave" "pw" "Dave" "" "D" "2000-02-29" "@dave" db_one in
  snd (fst registered) = None
  /\ map password (users (snd registered))
     = map password (users db_one) ++ ["$2a$10$pw$s"]
  /\ forall row, In row (users (snd registered)) -> username row = "dave" ->
       password row <> "pw".
Proof.
  intros registered.
  destruct (MakeUser_stores_hash "s" "dave" "pw" "Dave" "" "D" "2000-02-29" "@dave"
              db_one (snd registered)
              {| user.ID := 3; user.Username := "dave"; user.FirstName := "";
                 user.MiddleName := ""; user.LastName := ""; user.Password := "";
                 user.Birthday := ""; user.Telegram := ""; user.TelegramID := 0 |}
              platform_never_echoes eq_refl)
    as (hash & date & Hgen & Hdate & Husers & Hneq).
  split; [reflexivity|]. split; [reflexivity|].
  intros row Hrow Hname. rewrite Husers in Hrow. apply in_app_iff in Hrow.
  destruct Hrow as [[<-|[<-|[]]] | [<-|[]]]; try discriminate Hname.
  exact Hneq.
Defined.

(** C9, witness: the bare commands, with the map walked backwards. *)
Lemma bare_command_panics_witness :
  fst (bot.updateHandler (rev bot.commandHandlers) (command "/subscribe") db_one)
  = Panic "runtime error: slice bounds out of range [11:10]"
  /\ fst (bot.updateHandler (rev bot.commandHandlers) (command "/unsubscribe") db_one)
     = Panic "runtime error: slice bounds out of range [13:12]".
Proof.
  assert (Hperm : Permutation (rev bot.commandHandlers) bot.commandHandlers)
    by (apply Permutation_sym, Permutation_rev).
  destruct (bare_command_panics _ db_one
              (Some {| tgbotapi.ID := 1002; tgbotapi.UserName := "bob" |})
              {| tgbotapi.ChatID := 1002 |} Hperm) as [Hsub Hunsub].
  unfold command. rewrite Hsub, Hunsub. split; reflexivity.
Defined.

(** C4, counterexample: the request carries Alice's session (user 1) and
    names users 2 and 3 in its body; it is accepted, and the subscription
    recorded is that of user 3, whom the session does not name. *)
Lemma subscriber_taken_from_body :
  let h := service db_unbound in
  let r := subscribeRequest "Bearer token-0" 2 3 in
  fst (sessions.Check (bearerKey (handlers.Authorization r)) (handlers.Sessions h))
  = Some {| sessions.ID := 1; sessions.Login := "alice"; sessions.Useragent := "curl" |}
  /\ fst (handlers.SubscribeToUser r h)
     = Done {| handlers.StatusCode := 200; handlers.Written := handlers.NoBody |}
  /\ handlers.Journal (snd (handlers.SubscribeToUser r h))
     = [handlers.CallCheck (bearerKey "Bearer token-0"); handlers.CallSubscribe 2 3 1]
  /\ subscribes (UserRepo.DB (handlers.UserRepo (snd (handlers.SubscribeToUser r h))))
     = subscribes db_unbound ++ [{| sid := 3; userID := 2; subscriberID := 3 |}]
  /\ 3 <> 1.
Proof.
  repeat split. discriminate.
Qed.

(** C4, witness: no prefix, an unknown token, and an accepted request. *)
Lemma protected_routes_witness :
  let h := service db_unbound in
  handlers.GetUsers (listRequest "token-0") h = (Done Unauthorized, h)
  /\ fst (handlers.SubscribeToUser (subscribeRequest "Bearer token-9" 2 3) h)
     = Done Unauthorized
  /\ handlers.Journal (snd (handlers.GetUsers (listRequest "Bearer token-0") h))
     = [handlers.CallCheck (bearerKey "Bearer token-0"); handlers.CallGetUsers].
Proof.
  intros h.
  destruct (protected_routes h 1 (listRequest "token-0")
              (subscribeRequest "Bearer token-9" 2 3)) as (Hplain & _ & _ & Hunknown & _).
  destruct (protected_routes h 1 (listRequest "Bearer token-0")
              (subscribeRequest "Bearer token-9" 2 3)) as (_ & _ & _ & _ & Hlist & _).
  split; [|split].
  - apply Hplain. reflexivity.
  - unfold handlers.SubscribeToUser. rewrite Hunknown; reflexivity.
  - rewrite Hlist; [reflexivity | reflexivity | simpl; discriminate].
Defined.

(** C5, witness: a login under an unknown name leaves the one session of
    the store alone. *)
Lemma Login_failure_creates_no_session_witness :
  handlers.Sessions (snd (handlers.Login (login "zed" "x") (service db_one)))
  = handlers.Sessions (service db_one).
Proof.
  assert (Hrefused : UserRepo.Authorize "zed" "x" (handlers.UserRepo (service db_one))
                     = ((None, Some ErrNoUser), repo db_one)) by reflexivity.
  destruct (Login_failure_creates_no_session (login "zed" "x") (service db_one)
              {| handlers.af_Username := "zed"; handlers.af_Password := "x" |}
              None ErrNoUser (repo db_one) eq_refl Hrefused) as [Hsame _].
  exact Hsame.
Defined.

(** C10, counterexample: an unknown user and a wrong password are told
    apart by the text of the answer. *)
Lemma unknown_user_and_wrong_password_differ :
  user.Authorize "zed" "x" db_one = (None, Some ErrNoUser)
  /\ user.Authorize "alice" "x" db_one = (None, Some ErrBadPass)
  /\ fst (handlers.Login (login "zed" "x") (service db_one))
     = Done (handlers.http_Error "no user found" 400)
  /\ fst (handlers.Login (login "alice" "x") (service db_one))
     = Done (handlers.http_Error "invalid password" 400)
  /\ fst (handlers.Login (login "zed" "x") (service db_one))
     <> fst (handlers.Login (login "alice" "x") (service db_one)).
Proof.
  repeat split. vm_compute. discriminate.
Qed.

(** C10, witness: the answer to a wrong password. *)
Lemma Login_failure_is_bad_request_witness :
  fst (handlers.Login (login "alice" "x") (service db_one))
  = Done (handlers.http_Error "invalid password" handlers.StatusBadRequest).
Proof.
  destruct (@Login_failure_is_bad_request _ _ (UserRepo.Mysql (P := platform)) store)
    as (_ & Hbad & _).
  apply (Hbad (login "alice" "x") (service db_one)
              {| handlers.af_Username := "alice"; handlers.af_Password := "x" |}
              None ErrBadPass (repo db_one)); reflexivity.
Defined.

End Examples.

(** * Further facts about the repository *)
Section FurtherRepositoryFacts.
Context {P : Platform}.

Lemma filter_filter_out {A : Type} (f : A -> bool) (l : list A) :
  filter f (filter (fun x => negb (f x)) l) = [].
Proof.
  apply filter_nothing. intros x Hx. apply filter_In in Hx.
  destruct Hx as [_ Hx]. now destruct (f x).
Qed.

Lemma filter_keeps_all {A : Type} (f : A -> bool) (l : list A) :
  (forall x, In x l -> f x = true) -> filter f l = l.
Proof.
  induction l as [|a l IH]; intros H; simpl; [reflexivity|].
  rewrite (H a (or_introl eq_refl)). f_equal. apply IH.
  intros x Hx. apply H. now right.
Qed.

Lemma filter_commute {A : Type} (f g : A -> bool) (l : list A) :
  filter f (filter g l) = filter g (filter f l).
Proof.
  induction l as [|a l IH]; simpl; [reflexivity|].
  destruct (f a) eqn:Ef, (g a) eqn:Eg; simpl; rewrite ?Ef, ?Eg, IH; reflexivity.
Qed.

Lemma other_pair (a b uid sub : Z) :
  a <> uid \/ b <> sub -> (uid =? a) && (sub =? b) = false.
Proof.
  intros [H|H]; apply andb_false_iff; [left|right]; apply Z.eqb_neq; congruence.
Qed.

Lemma QueryRow_id (db : Database) (uid : Z) (row : UserRow) :
  user.QueryRow (user.selectByID db uid) = Some row -> In row (users db) /\ id row = uid.
Proof.
  unfold user.QueryRow, user.selectByID. intros H.
  destruct (filter (fun r => id r =? uid) (users db)) as [|r rest] eqn:E; [discriminate|].
  inversion H; subst r.
  assert (Hin : In row (filter (fun r => id r =? uid) (users db))) by (rewrite E; now left).
  apply filter_In in Hin. destruct Hin as [Hin Hid]. apply Z.eqb_eq in Hid. now split.
Qed.

Lemma QueryRow_found (db : Database) (uid : Z) :
  (exists row, In row (users db) /\ id row = uid) ->
  exists row, user.QueryRow (user.selectByID db uid) = Some row.
Proof.
  intros [row [Hin Hid]]. unfold user.QueryRow, user.selectByID.
  assert (Hmem : In row (filter (fun r => id r =? uid) (users db))).
  { apply filter_In. split; [assumption | now apply Z.eqb_eq]. }
  destruct (filter (fun r => id r =? uid) (users db)) as [|r rest]; [contradiction|].
  now exists r.
Qed.

Lemma MakeUser_success (salt name pass first middle last bday handle : string)
    (db db' : Database) (u : user.User) :
  user.MakeUser salt name pass first middle last bday handle db = ((Some u, None), db') ->
  exists hash date,
    GenerateFromPassword salt pass DefaultCost = (hash, None)
    /\ toDate bday = Some date
    /\ existsb (fun r => collate (username r) name) (users db) = false
    /\ existsb (fun r => collate (telegram r) handle) (users db) = false
    /\ u = registered (usersAutoInc db) name
    /\ db' = {| users := users db ++
                  [{| id := usersAutoInc db; username := name; firstname := first;
                      middlename := middle; lastname := last; password := hash;
                      birthday := date; telegram := handle; telegramID := None |}];
                usersAutoInc := usersAutoInc db + 1;
                subscribes := subscribes db;
                subscribesAutoInc := subscribesAutoInc db |}.
Proof.
  intros Hmake. unfold user.MakeUser, user.hashPassword in Hmake.
  destruct (GenerateFromPassword salt pass DefaultCost) as [hash [e|]] eqn:Hgen;
    [discriminate|].
  unfold user.insertUser in Hmake.
  destruct (toDate bday) as [date|] eqn:Hdate; [|discriminate].
  destruct (forallb fitsVarchar [name; hash; first; middle; last; handle]); [|discriminate].
  destruct (existsb (fun r => collate (username r) name) (users db));
    [simpl in Hmake; discriminate|].
  destruct (existsb (fun r => collate (telegram r) handle) (users db));
    [simpl in Hmake; discriminate|].
  simpl in Hmake. inversion Hmake; subst.
  exists hash, date. repeat split; reflexivity.
Qed.

Lemma insertUser_refused (name hash first middle last bday handle : string)
    (db d : Database) :
  user.insertUser name hash first middle last bday handle db = (None, d) ->
  users d = users db /\ subscribes d = subscribes db
  /\ subscribesAutoInc d = subscribesAutoInc db
  /\ (usersAutoInc d = usersAutoInc db \/ usersAutoInc d = usersAutoInc db + 1).
Proof.
  unfold user.insertUser.
  destruct (toDate bday); [|intros H; inversion H; subst; auto].
  destruct (forallb fitsVarchar _); [|intros H; inversion H; subst; auto].
  match goal with |- context [if ?c then _ else _] => destruct c end;
    intros H; inversion H; subst; simpl; auto.
Qed.

Lemma insertSubscribe_refused (uid sub : Z) (db d : Database) :
  user.insertSubscribe uid sub db = (false, d) ->
  users d = users db /\ subscribes d = subscribes db
  /\ usersAutoInc d = usersAutoInc db
  /\ (subscribesAutoInc d = subscribesAutoInc db
      \/ subscribesAutoInc d = subscribesAutoInc db + 1)
  /\ existsb (fun r => id r =? uid) (users db)
     && existsb (fun r => id r =? sub) (users db) = false.
Proof.
  unfold user.insertSubscribe.
  destruct (existsb (fun r => id r =? uid) (users db)
            && existsb (fun r => id r =? sub) (users db)); [discriminate|].
  destruct (fitsInt uid && fitsInt sub); intros H; inversion H; subst; simpl; auto 6.
Qed.

Lemma insertSubscribe_done (uid sub : Z) (db d : Database) :
  user.insertSubscribe uid sub db = (true, d) ->
  existsb (fun r => id r =? sub) (users db) = true
  /\ d = {| users := users db; usersAutoInc := usersAutoInc db;
            subscribes := subscribes db ++
              [{| sid := subscribesAutoInc db; userID := uid; subscriberID := sub |}];
            subscribesAutoInc := subscribesAutoInc db + 1 |}.
Proof.
  unfold user.insertSubscribe.
  destruct (existsb (fun r => id r =? uid) (users db)); simpl.
  - destruct (existsb (fun r => id r =? sub) (users db)).
    + intros H. inversion H. now split.
    + destruct (fitsInt uid && fitsInt sub); discriminate.
  - destruct (fitsInt uid && fitsInt sub); discriminate.
Qed.

Lemma Subscribe_success (uid sub : Z) (db db' : Database) (u : user.User) :
  user.Subscribe uid sub 1 db = ((Some u, None), db') ->
  (exists row, In row (users db) /\ id row = uid /\ u = publicIdentity row)
  /\ (exists s, In s (users db) /\ id s = sub)
  /\ db' = {| users := users db; usersAutoInc := usersAutoInc db;
              subscribes := subscribes db ++ [edge db uid sub];
              subscribesAutoInc := subscribesAutoInc db + 1 |}.
Proof.
  unfold user.Subscribe.
  destruct (user.QueryRow (user.selectByID db uid)) as [row|] eqn:Hq; [|discriminate].
  apply QueryRow_id in Hq. destruct Hq as [Hin Hid].
  simpl.
  destruct (user.insertSubscribe uid sub db) as [[|] d] eqn:Hins; [|discriminate].
  apply insertSubscribe_done in Hins. destruct Hins as [Hsub ->].
  intros H. inversion H; subst. split; [|split].
  - exists row. repeat split; assumption.
  - apply existsb_exists in Hsub. destruct Hsub as [s [Hs Hsid]].
    exists s. split; [assumption | now apply Z.eqb_eq].
  - reflexivity.
Qed.

(** X1. A call of the repository that returns an error returns no user
    and leaves every row of both tables as it was; the one thing a refused
    INSERT may change is an AUTO_INCREMENT counter.  A refused [UpdateUser]
    changes nothing at all. *)
Theorem refused_calls_keep_every_row (db db' : Database) (e : error) :
  (forall salt name pass first middle last bday handle u,
     user.MakeUser salt name pass first middle last bday handle db = ((u, Some e), db') ->
     u = None /\ users db' = users db /\ subscribes db' = subscribes db)
  /\ (forall uid sub typeOf u,
        user.Subscribe uid sub typeOf db = ((u, Some e), db') ->
        u = None /\ users db' = users db /\ subscribes db' = subscribes db)
  /\ (forall tid handle, user.UpdateUser tid handle db = (Some e, db') -> db' = db).
Proof.
  split; [|split].
  - intros salt name pass first middle last bday handle u.
    unfold user.MakeUser, user.hashPassword.
    destruct (GenerateFromPassword salt pass DefaultCost) as [hash [e'|]].
    + intros H. inversion H. now repeat split.
    + destruct (user.insertUser name hash first middle last bday handle db)
        as [[i|] d] eqn:Hins; intros H; inversion H; subst.
      apply insertUser_refused in Hins. destruct Hins as (Hu & Hs & _).
      now repeat split.
  - intros uid sub typeOf u. unfold user.Subscribe.
    destruct (user.QueryRow (user.selectByID db uid)).
    + destruct (typeOf =? 1).
      * destruct (user.insertSubscribe uid sub db) as [[|] d] eqn:Hins;
          intros H; inversion H; subst.
        apply insertSubscribe_refused in Hins. destruct Hins as (Hu & Hs & _).
        now repeat split.
      * destruct (typeOf =? 0); intros H; inversion H. now repeat split.
    + intros H. inversion H. now repeat split.
  - intros tid handle. unfold user.UpdateUser.
    destruct (user.selectByTelegram db ("@" +++ handle)).
    + intros H. now inversion H.
    + repeat match goal with
             | |- context [if ?c then _ else _] => destruct c
             end; intros H; now inversion H.
Qed.

(** X2. [Authorize], [MakeUser], [Subscribe] and [GetUserByTelegram] return
    either a user or an error, never both and never neither: their callers
    may dereference the user once the error is nil. *)
Theorem user_or_error (db : Database) :
  (forall name pass,
     fst (user.Authorize name pass db) = None <-> snd (user.Authorize name pass db) <> None)
  /\ (forall salt name pass first middle last bday handle,
        fst (fst (user.MakeUser salt name pass first middle last bday handle db)) = None
        <-> snd (fst (user.MakeUser salt name pass first middle last bday handle db)) <> None)
  /\ (forall uid sub typeOf,
        fst (fst (user.Subscribe uid sub typeOf db)) = None
        <-> snd (fst (user.Subscribe uid sub typeOf db)) <> None)
  /\ (forall handle,
        fst (user.GetUserByTelegram handle db) = None
        <-> snd (user.GetUserByTelegram handle db) <> None).
Proof.
  split; [|split; [|split]].
  - intros name pass. unfold user.Authorize.
    destruct (user.QueryRow (user.selectByUsername db name)); simpl.
    + destruct (CompareHashAndPassword _ pass); simpl; split; congruence.
    + split; congruence.
  - intros salt name pass first middle last bday handle.
    unfold user.MakeUser, user.hashPassword.
    destruct (GenerateFromPassword salt pass DefaultCost) as [hash [e'|]]; simpl.
    + split; congruence.
    + destruct (user.insertUser name hash first middle last bday handle db) as [[i|] d];
        simpl; split; congruence.
  - intros uid sub typeOf. unfold user.Subscribe.
    destruct (user.QueryRow (user.selectByID db uid)); simpl.
    + destruct (typeOf =? 1).
      * destruct (user.insertSubscribe uid sub db) as [[|] d]; simpl; split; congruence.
      * destruct (typeOf =? 0); simpl; split; congruence.
    + split; congruence.
  - intros handle. unfold user.GetUserByTelegram.
    destruct (user.QueryRow (user.selectByTelegram db handle)); simpl; split; congruence.
Qed.

(** X3. After a successful registration, a second one under a username or
    a telegram handle that the collation equates with the first is refused
    and leaves every row of both tables as it was; the error is [ErrExists]
    unless [bcrypt] itself has refused the new password. *)
Theorem second_registration_refused
    (salt name pass first middle last bday handle : string)
    (salt2 name2 pass2 first2 middle2 last2 bday2 handle2 : string)
    (db db1 : Database) (u : user.User) :
  user.MakeUser salt name pass first middle last bday handle db = ((Some u, None), db1) ->
  collate name name2 = true \/ collate handle handle2 = true ->
  exists e db2,
    user.MakeUser salt2 name2 pass2 first2 middle2 last2 bday2 handle2 db1
    = ((None, Some e), db2)
    /\ users db2 = users db1 /\ subscribes db2 = subscribes db1
    /\ (snd (GenerateFromPassword salt2 pass2 DefaultCost) = None -> e = ErrExists).
Proof.
  intros Hfirst Hsame.
  apply MakeUser_success in Hfirst.
  destruct Hfirst as (hash & date & _ & _ & _ & _ & _ & ->).
  unfold user.MakeUser, user.hashPassword.
  destruct (GenerateFromPassword salt2 pass2 DefaultCost) as [hash2 [e2|]]; simpl.
  - exists e2. eexists. split; [reflexivity|]. repeat split. discriminate.
  - exists ErrExists.
    match goal with
    | |- context [user.insertUser ?a ?b ?c ?d ?e ?f ?g ?h] =>
        destruct (user.insertUser a b c d e f g h) as [[i|] d2] eqn:Hins
    end.
    + exfalso. unfold user.insertUser in Hins.
      destruct (toDate bday2); [|discriminate].
      destruct (forallb fitsVarchar _); [|discriminate].
      cbn [users] in Hins. rewrite !existsb_app in Hins. cbn [existsb username telegram] in Hins.
      destruct Hsame as [Hs | Hs]; rewrite Hs in Hins;
        rewrite ?orb_true_r, ?andb_false_r in Hins; simpl in Hins;
        rewrite ?andb_false_r in Hins; discriminate.
    + apply insertUser_refused in Hins. destruct Hins as (Hu & Hs & _).
      exists d2. repeat split; assumption.
Qed.

(** X4. Register, then log in: when the collation equates the username with
    itself and [bcrypt] accepts a password for the hash it has made of it,
    [Authorize] on the tables left by a successful [MakeUser] returns the
    new user, with the id [MakeUser] has returned, and no error. *)
Theorem register_then_login (salt name pass first middle last bday handle : string)
    (db db1 : Database) (u : user.User) :
  collate name name = true ->
  (forall hash, GenerateFromPassword salt pass DefaultCost = (hash, None) ->
     CompareHashAndPassword hash pass = None) ->
  user.MakeUser salt name pass first middle last bday handle db = ((Some u, None), db1) ->
  exists u',
    user.Authorize name pass db1 = (Some u', None)
    /\ user.ID u' = user.ID u /\ user.Username u' = name
    /\ GenerateFromPassword salt pass DefaultCost = (user.Password u', None).
Proof.
  intros Hrefl Hbcrypt Hmake.
  apply MakeUser_success in Hmake.
  destruct Hmake as (hash & date & Hgen & _ & Hname & _ & -> & ->).
  unfold user.Authorize, user.selectByUsername. simpl users.
  rewrite filter_app.
  rewrite (filter_nothing _ (users db)) by (now apply existsb_false).
  simpl. rewrite Hrefl. simpl. rewrite (Hbcrypt hash Hgen).
  eexists. split; [reflexivity|]. simpl. repeat split. exact Hgen.
Qed.

(** X5. A successful [Subscribe] with [typeOf = 1] is counted: the pair
    [(uid, sub)] is recorded once more than before, also when it was
    recorded already; every other pair is recorded as often as before; the
    users are untouched; and the subscriber is among the rows that the
    query of [GetSubscribedUsers] selects for [uid]. *)
Theorem Subscribe_is_counted (uid sub : Z) (db db1 : Database) (u : user.User) :
  user.Subscribe uid sub 1 db = ((Some u, None), db1) ->
  users db1 = users db
  /\ subscribes db1 = subscribes db ++ [edge db uid sub]
  /\ subscriptionsOf db1 uid sub = S (subscriptionsOf db uid sub)
  /\ (forall a b, a <> uid \/ b <> sub -> subscriptionsOf db1 a b = subscriptionsOf db a b)
  /\ (exists s, In s (user.selectSubscribers db1 uid) /\ id s = sub).
Proof.
  intros Hsub. apply Subscribe_success in Hsub.
  destruct Hsub as (_ & [s [Hs Hsid]] & ->).
  split; [reflexivity|]. split; [reflexivity|]. split; [|split].
  - unfold subscriptionsOf. simpl. rewrite filter_app, length_app. simpl.
    rewrite !Z.eqb_refl. simpl. lia.
  - intros a b Hother. unfold subscriptionsOf. simpl. rewrite filter_app, length_app.
    simpl. rewrite (other_pair a b uid sub Hother). simpl. lia.
  - exists s. split; [|assumption].
    unfold user.selectSubscribers. simpl. apply in_flat_map.
    exists (edge db uid sub). split.
    + apply filter_In. split; [apply in_or_app; right; now left|].
      simpl. apply Z.eqb_refl.
    + apply filter_In. split; [assumption|]. simpl. now apply Z.eqb_eq.
Qed.

(** X6. [Subscribe] with [typeOf = 0] on an existing user never fails,
    whether or not there is anything to delete: it returns the user, leaves
    the pair [(uid, sub)] recorded nowhere, however often it was recorded,
    keeps every other pair and the users, and when the pair was not
    recorded the rows of [subscribes] are those from before. *)
Theorem Unsubscribe_removes_every_copy (uid sub : Z) (db : Database) :
  (exists row, In row (users db) /\ id row = uid) ->
  exists u db1,
    user.Subscribe uid sub 0 db = ((Some u, None), db1)
    /\ user.ID u = uid
    /\ users db1 = users db
    /\ subscriptionsOf db1 uid sub = 0%nat
    /\ (forall a b, a <> uid \/ b <> sub -> subscriptionsOf db1 a b = subscriptionsOf db a b)
    /\ (subscriptionsOf db uid sub = 0%nat -> subscribes db1 = subscribes db).
Proof.
  intros Hex. destruct (QueryRow_found db uid Hex) as [row Hq].
  pose proof (QueryRow_id db uid row Hq) as [_ Hid].
  unfold user.Subscribe. rewrite Hq. simpl.
  eexists. eexists. split; [reflexivity|].
  split; [exact Hid|]. split; [reflexivity|]. split; [|split].
  - unfold subscriptionsOf, user.deleteSubscribe. simpl.
    now rewrite (filter_filter_out (fun s => (userID s =? uid) && (subscriberID s =? sub))).
  - intros a b Hother. unfold subscriptionsOf, user.deleteSubscribe. simpl.
    rewrite filter_commute. f_equal. apply filter_keeps_all.
    intros x Hx. apply filter_In in Hx. destruct Hx as [_ Hx].
    apply andb_true_iff in Hx. destruct Hx as [Ha Hb].
    apply Z.eqb_eq in Ha, Hb. subst a b.
    apply negb_true_iff. apply andb_false_iff.
    destruct Hother as [H|H]; [left|right]; apply Z.eqb_neq; congruence.
  - intros Hnone. unfold user.deleteSubscribe. simpl. apply filter_keeps_all.
    intros x Hx. apply negb_true_iff.
    destruct ((userID x =? uid) && (subscriberID x =? sub)) eqn:E; [|reflexivity].
    unfold subscriptionsOf in Hnone. apply length_zero_iff_nil in Hnone.
    assert (Hmem : In x (filter (fun s => (userID s =? uid) && (subscriberID s =? sub))
                                (subscribes db))) by (apply filter_In; now split).
    rewrite Hnone in Hmem. contradiction.
Qed.

(** X7. Subscribe, then unsubscribe: when the pair was not recorded before,
    the two calls in a row succeed with the same user and leave the rows of
    both tables as they were at the start. *)
Theorem Subscribe_Unsubscribe_round_trip (uid sub : Z) (db db1 : Database) (u : user.User) :
  subscriptionsOf db uid sub = 0%nat ->
  user.Subscribe uid sub 1 db = ((Some u, None), db1) ->
  exists db2,
    user.Subscribe uid sub 0 db1 = ((Some u, None), db2)
    /\ users db2 = users db /\ subscribes db2 = subscribes db.
Proof.
  intros Hnone Hsub.
  assert (Hq : exists row, user.QueryRow (user.selectByID db uid) = Some row
                           /\ u = publicIdentity row).
  { unfold user.Subscribe in Hsub.
    destruct (user.QueryRow (user.selectByID db uid)) as [row|]; [|discriminate].
    exists row. split; [reflexivity|]. simpl in Hsub.
    destruct (user.insertSubscribe uid sub db) as [[|] d]; inversion Hsub. reflexivity. }
  destruct Hq as (row & Hq & ->).
  apply Subscribe_success in Hsub. destruct Hsub as (_ & _ & ->).
  unfold user.Subscribe, user.selectByID. simpl users.
  unfold user.selectByID in Hq. rewrite Hq. simpl.
  eexists. split; [reflexivity|]. split; [reflexivity|].
  unfold user.deleteSubscribe. simpl. rewrite filter_app. simpl.
  rewrite !Z.eqb_refl. simpl. rewrite app_nil_r.
  apply filter_keeps_all. intros x Hx. apply negb_true_iff.
  destruct ((userID x =? uid) && (subscriberID x =? sub)) eqn:E; [|reflexivity].
  unfold subscriptionsOf in Hnone. apply length_zero_iff_nil in Hnone.
  assert (Hmem : In x (filter (fun s => (userID s =? uid) && (subscriberID s =? sub))
                              (subscribes db))) by (apply filter_In; now split).
  rewrite Hnone in Hmem. contradiction.
Qed.

End FurtherRepositoryFacts.

(** * What the repository keeps true of the tables *)
Section TableInvariants.
Context {P : Platform}.

Lemma Sound_same_rows (db d : Database) :
  users d = users db -> subscribes d = subscribes db ->
  usersAutoInc db <= usersAutoInc d -> Sound db -> Sound d.
Proof.
  intros Hu Hs Hc [Hids Hcounter Hrefs]. split; rewrite ?Hu, ?Hs; try assumption.
  intros row Hrow. apply Hcounter in Hrow. lia.
Qed.

Lemma MakeUser_tables (salt name pass first middle last bday handle : string)
    (db : Database) :
  (users (snd (user.MakeUser salt name pass first middle last bday handle db)) = users db
   /\ subscribes (snd (user.MakeUser salt name pass first middle last bday handle db))
      = subscribes db
   /\ usersAutoInc db
      <= usersAutoInc (snd (user.MakeUser salt name pass first middle last bday handle db)))
  \/ exists row,
       id row = usersAutoInc db /\ telegramID row = None
       /\ snd (user.MakeUser salt name pass first middle last bday handle db)
          = {| users := users db ++ [row]; usersAutoInc := usersAutoInc db + 1;
               subscribes := subscribes db; subscribesAutoInc := subscribesAutoInc db |}.
Proof.
  unfold user.MakeUser, user.hashPassword.
  destruct (GenerateFromPassword salt pass DefaultCost) as [hash [e|]]; simpl;
    [left; repeat split; lia|].
  destruct (user.insertUser name hash first middle last bday handle db) as [[i|] d] eqn:Hins.
  - right. unfold user.insertUser in Hins.
    destruct (toDate bday) as [date|]; [|discriminate].
    destruct (forallb fitsVarchar _); [|discriminate].
    match type of Hins with context [if ?c then _ else _] => destruct c end;
      [|discriminate].
    inversion Hins; subst. simpl. eexists. split; [|split]; [| |reflexivity]; reflexivity.
  - left. apply insertUser_refused in Hins. destruct Hins as (Hu & Hs & _ & Hc).
    simpl. repeat split; try assumption. destruct Hc as [-> | ->]; lia.
Qed.

Lemma Subscribe_tables (uid sub typeOf : Z) (db : Database) :
  (users (snd (user.Subscribe uid sub typeOf db)) = users db
   /\ subscribes (snd (user.Subscribe uid sub typeOf db)) = subscribes db
   /\ usersAutoInc (snd (user.Subscribe uid sub typeOf db)) = usersAutoInc db)
  \/ ((exists u, In u (users db) /\ id u = uid)
      /\ (exists s, In s (users db) /\ id s = sub)
      /\ snd (user.Subscribe uid sub typeOf db)
         = {| users := users db; usersAutoInc := usersAutoInc db;
              subscribes := subscribes db ++ [edge db uid sub];
              subscribesAutoInc := subscribesAutoInc db + 1 |})
  \/ snd (user.Subscribe uid sub typeOf db) = user.deleteSubscribe uid sub db.
Proof.
  unfold user.Subscribe.
  destruct (user.QueryRow (user.selectByID db uid)) as [row|] eqn:Hq;
    [|left; now repeat split].
  apply QueryRow_id in Hq. destruct Hq as [Hrow Hid].
  destruct (typeOf =? 1).
  - destruct (user.insertSubscribe uid sub db) as [[|] d] eqn:Hins.
    + right. left. apply insertSubscribe_done in Hins. destruct Hins as [Hs ->].
      apply existsb_exists in Hs. destruct Hs as [y [Hy Hye]]. apply Z.eqb_eq in Hye.
      split; [now exists row|]. split; [now exists y | reflexivity].
    + left. apply insertSubscribe_refused in Hins. destruct Hins as (Hu & Hs & Hc & _).
      simpl. now repeat split.
  - destruct (typeOf =? 0); [now right; right | left; now repeat split].
Qed.

Lemma UpdateUser_tables (tid : Z) (handle : string) (db : Database) :
  snd (user.UpdateUser tid handle db) = db
  \/ snd (user.UpdateUser tid handle db)
     = {| users := map (fun r => if collate (telegram r) ("@" +++ handle)
                                 then bindAccount tid r else r) (users db);
          usersAutoInc := usersAutoInc db;
          subscribes := subscribes db;
          subscribesAutoInc := subscribesAutoInc db |}.
Proof.
  unfold user.UpdateUser.
  destruct (user.selectByTelegram db ("@" +++ handle)); [now left|].
  repeat match goal with
         | |- context [if ?c then (_, db) else _] => destruct c; [now left|]
         end.
  now right.
Qed.

Lemma bind_keeps_ids (tid : Z) (target : string) (rows : list UserRow) :
  map id (map (fun r => if collate (telegram r) target then bindAccount tid r else r) rows)
  = map id rows.
Proof.
  rewrite map_map. apply map_ext. intros r.
  now destruct (collate (telegram r) target).
Qed.

(** X8. Whatever their arguments and their outcome, [MakeUser], [Subscribe]
    and [UpdateUser] keep the tables sound: ids stay unique and below the
    counter, and every subscription keeps referring to two users. *)
Theorem repository_keeps_tables_sound (db : Database) :
  Sound db ->
  (forall salt name pass first middle last bday handle,
     Sound (snd (user.MakeUser salt name pass first middle last bday handle db)))
  /\ (forall uid sub typeOf, Sound (snd (user.Subscribe uid sub typeOf db)))
  /\ (forall tid handle, Sound (snd (user.UpdateUser tid handle db))).
Proof.
  intros Hsound. pose proof Hsound as [Hids Hcounter Hrefs]. split; [|split].
  - intros salt name pass first middle last bday handle.
    destruct (MakeUser_tables salt name pass first middle last bday handle db)
      as [(Hu & Hs & Hc) | [row [Hid [_ ->]]]];
      [now apply (Sound_same_rows db)|].
    split; simpl.
    + rewrite map_app. simpl.
      apply (Permutation_NoDup (Permutation_cons_append _ _)).
      constructor; [|assumption].
      intros Hin. apply in_map_iff in Hin. destruct Hin as [r [Hr Hin]].
      apply Hcounter in Hin. lia.
    + intros r Hr. apply in_app_iff in Hr. destruct Hr as [Hr | [<- | []]].
      * apply Hcounter in Hr. lia.
      * lia.
    + intros e He. destruct (Hrefs e He) as [[u [Hu Hue]] [x [Hx Hxe]]].
      split; [exists u | exists x]; (split; [apply in_or_app; now left | assumption]).
  - intros uid sub typeOf.
    destruct (Subscribe_tables uid sub typeOf db)
      as [(Hu & Hs & Hc) | [(Hu & Hs & ->) | ->]];
      [apply (Sound_same_rows db); try assumption; lia | |];
      split; simpl; try assumption.
    + intros e He. apply in_app_iff in He. destruct He as [He | [<- | []]].
      * now apply Hrefs.
      * simpl. now split.
    + intros e He. apply filter_In in He. destruct He as [He _]. now apply Hrefs.
  - intros tid handle.
    destruct (UpdateUser_tables tid handle db) as [-> | ->]; [now split|].
    split; simpl.
    + now rewrite bind_keeps_ids.
    + intros r Hr. apply in_map_iff in Hr. destruct Hr as [r0 [<- Hr0]].
      apply Hcounter in Hr0. now destruct (collate (telegram r0) _).
    + intros e He. destruct (Hrefs e He) as [[u [Hu Hue]] [x [Hx Hxe]]].
      split.
      * eexists. split; [apply in_map; exact Hu|].
        now destruct (collate (telegram u) _).
      * eexists. split; [apply in_map; exact Hx|].
        now destruct (collate (telegram x) _).
Qed.

(** X9. A user who has just registered has no bound account; once such a
    user subscribes to [target], the query of [GetSubscribedUsers] for
    [target] fails on the NULL, and the turn of [target] in a notification
    cycle sends nothing, whoever else follows [target]. *)
Theorem new_subscriber_silences_target
    (salt name pass first middle last bday handle : string)
    (db db1 db2 : Database) (u t : user.User) (target : Z) :
  user.MakeUser salt name pass first middle last bday handle db = ((Some u, None), db1) ->
  user.Subscribe target (user.ID u) 1 db1 = ((Some t, None), db2) ->
  user.GetSubscribedUsers target db2 = ([], Some ScanNull)
  /\ forall outbox tu, user.ID tu = target -> bot.notifySubscribers db2 outbox tu = outbox.
Proof.
  intros Hmake Hsub.
  apply MakeUser_success in Hmake.
  destruct Hmake as (hash & date & _ & _ & _ & _ & -> & ->).
  apply Subscribe_success in Hsub. destruct Hsub as (_ & _ & ->). simpl user.ID.
  match goal with
  | |- user.GetSubscribedUsers target ?d = _ /\ _ =>
      assert (Hnull : exists row, In row (user.selectSubscribers d target)
                                  /\ telegramID row = None)
  end.
  { eexists. split.
    - unfold user.selectSubscribers. simpl. apply in_flat_map.
      exists (edge db target (usersAutoInc db)). split.
      + apply filter_In. split; [apply in_or_app; right; now left|].
        simpl. apply Z.eqb_refl.
      + apply filter_In. split; [apply in_or_app; right; now left|].
        simpl. apply Z.eqb_refl.
    - reflexivity. }
  split.
  - now apply GetSubscribedUsers_unbound.
  - intros outbox tu <-. unfold bot.notifySubscribers.
    now rewrite (GetSubscribedUsers_unbound _ _ Hnull).
Qed.

Lemma select_after_bind (tid : Z) (target : string) (rows : list UserRow) :
  filter (fun r => collate (telegram r) target)
         (map (fun r => if collate (telegram r) target then bindAccount tid r else r) rows)
  = map (bindAccount tid) (filter (fun r => collate (telegram r) target) rows).
Proof.
  induction rows as [|r rows IH]; simpl; [reflexivity|].
  destruct (collate (telegram r) target) eqn:E; simpl; rewrite E, IH; reflexivity.
Qed.

Lemma UpdateUser_result (tid : Z) (handle : string) (db db1 : Database) :
  user.UpdateUser tid handle db = (None, db1) ->
  user.selectByTelegram db ("@" +++ handle) <> []
  /\ db1 = {| users := map (fun r => if collate (telegram r) ("@" +++ handle)
                                     then bindAccount tid r else r) (users db);
              usersAutoInc := usersAutoInc db;
              subscribes := subscribes db;
              subscribesAutoInc := subscribesAutoInc db |}.
Proof.
  intros Hupd. split.
  - intros Hnil. unfold user.UpdateUser in Hupd. rewrite Hnil in Hupd. discriminate.
  - destruct (UpdateUser_tables tid handle db) as [H | H];
      rewrite Hupd in H; simpl in H; [|exact H].
    subst db1. unfold user.UpdateUser in Hupd.
    destruct (user.selectByTelegram db ("@" +++ handle)); [discriminate|].
    repeat match type of Hupd with
           | context [if ?c then _ else _] => destruct c; try discriminate
           end.
    inversion Hupd as [Heq]. rewrite <- Heq at 1. reflexivity.
Qed.

Lemma UpdateUser_again (tid : Z) (handle : string) (db db1 : Database) :
  user.UpdateUser tid handle db = (None, db1) ->
  user.UpdateUser tid handle db1 = (Some (ErrOther "no rows updated"), db1).
Proof.
  intros Hupd. apply UpdateUser_result in Hupd. destruct Hupd as [Hsome ->].
  unfold user.selectByTelegram in Hsome.
  unfold user.UpdateUser, user.selectByTelegram. cbn [users].
  rewrite select_after_bind.
  destruct (filter (fun r => collate (telegram r) ("@" +++ handle)) (users db))
    as [|r rest]; [congruence|].
  cbn [map].
  assert (Hall : forallb (fun r0 => user.sameTelegramID (telegramID r0) tid)
                         (bindAccount tid r :: map (bindAccount tid) rest) = true).
  { apply forallb_forall. intros x Hx.
    change (bindAccount tid r :: map (bindAccount tid) rest)
      with (map (bindAccount tid) (r :: rest)) in Hx.
    apply in_map_iff in Hx. destruct Hx as [x0 [<- _]]. simpl. apply Z.eqb_refl. }
  rewrite Hall. reflexivity.
Qed.

(** X10. [UpdateUser]: a handle that no user has gives the error
    [no rows updated] and changes nothing.  A successful call leaves
    [subscribes] and the ids alone, sets the [telegramID] of the users with
    the handle, keeps every other row, and is not repeatable: the same call
    on the tables it has left finds nothing to change and gives the error
    [no rows updated]. *)
Theorem UpdateUser_binds_once (tid : Z) (handle : string) (db : Database) :
  ((forall row, In row (users db) -> collate (telegram row) ("@" +++ handle) = false) ->
   user.UpdateUser tid handle db = (Some (ErrOther "no rows updated"), db))
  /\
  (forall db1, user.UpdateUser tid handle db = (None, db1) ->
     subscribes db1 = subscribes db
     /\ map id (users db1) = map id (users db)
     /\ (exists row, In row (users db1) /\ collate (telegram row) ("@" +++ handle) = true)
     /\ (forall row, In row (users db1) ->
           collate (telegram row) ("@" +++ handle) = true -> telegramID row = Some tid)
     /\ (forall row, In row (users db) ->
           collate (telegram row) ("@" +++ handle) = false -> In row (users db1))
     /\ user.UpdateUser tid handle db1 = (Some (ErrOther "no rows updated"), db1)).
Proof.
  split.
  - intros Hnone. unfold user.UpdateUser, user.selectByTelegram.
    now rewrite (filter_nothing _ _ Hnone).
  - intros db1 Hupd. pose proof (UpdateUser_again _ _ _ _ Hupd) as Hagain.
    apply UpdateUser_result in Hupd. destruct Hupd as [Hsome Hdb1].
    rewrite Hdb1 in *. clear Hdb1. cbn [users subscribes].
    split; [reflexivity|]. split; [apply bind_keeps_ids|].
    unfold user.selectByTelegram in Hsome.
    split; [|split; [|split]].
    + destruct (filter (fun r => collate (telegram r) ("@" +++ handle)) (users db))
        as [|r rest] eqn:E; [congruence|].
      assert (Hr : In r (filter (fun r => collate (telegram r) ("@" +++ handle)) (users db)))
        by (rewrite E; now left).
      apply filter_In in Hr. destruct Hr as [Hr Hc].
      exists (bindAccount tid r). split; [|exact Hc].
      apply in_map_iff. exists r. rewrite Hc. now split.
    + intros row Hrow Hc. apply in_map_iff in Hrow. destruct Hrow as [r [<- Hr]].
      destruct (collate (telegram r) ("@" +++ handle)) eqn:E; [reflexivity|].
      congruence.
    + intros row Hrow Hc. apply in_map_iff. exists row. rewrite Hc. now split.
    + exact Hagain.
Qed.

End TableInvariants.

(** * Further facts about the bot *)
Section FurtherBotFacts.
Context {P : Platform}.

Lemma first_row_matches {A : Type} (f : A -> bool) (l : list A) (x : A) :
  hd_error (filter f l) = Some x -> In x l /\ f x = true.
Proof.
  intros H. apply filter_In.
  destruct (filter f l) as [|y rest]; [discriminate|].
  inversion H; subst. now left.
Qed.

Lemma scanRows_accepts (rows : list UserRow) (acc l : list user.User) :
  user.scanRows user.scanSubscriber rows acc = (l, None) ->
  Forall (fun row => telegramID row <> None) rows.
Proof.
  revert acc. induction rows as [|row rows IH]; intros acc H; [constructor|].
  destruct (telegramID row) as [account|] eqn:Hrow.
  - constructor; [congruence|].
    simpl in H. pose proof (scanSubscriber_bound row) as Hs.
    destruct (user.scanSubscriber row) as [u err]. simpl in Hs.
    rewrite Hs in H by congruence. now apply (IH _ H).
  - simpl in H. pose proof (scanSubscriber_unbound row Hrow) as Hs.
    destruct (user.scanSubscriber row) as [u err]. simpl in Hs. subst err. discriminate.
Qed.

Lemma GetSubscribedUsers_accepts (db : Database) (uid : Z) (subs : list user.User) :
  user.GetSubscribedUsers uid db = (subs, None) ->
  Forall (fun row => telegramID row <> None) (user.selectSubscribers db uid)
  /\ subs = map subscriber (user.selectSubscribers db uid).
Proof.
  intros H.
  assert (Hall : Forall (fun row => telegramID row <> None) (user.selectSubscribers db uid)).
  { unfold user.GetSubscribedUsers in H.
    destruct (user.scanRows user.scanSubscriber (user.selectSubscribers db uid) [])
      as [l [e|]] eqn:E; [discriminate|].
    now apply scanRows_accepts in E. }
  split; [assumption|].
  rewrite (GetSubscribedUsers_bound _ _ Hall) in H.
  destruct (user.selectSubscribers db uid); inversion H; reflexivity.
Qed.

(** X11. A notification cycle writes to nobody else: every message it
    hands to [bot.Send] is the greeting for a user whose stored birth date
    has the month and the day of today, and goes to the bound account of a
    user whom a row of [subscribes] records as a follower of that user. *)
Theorem cycle_writes_only_to_followers (today : Date) (db : Database)
    (m : tgbotapi.MessageConfig) :
  In m (bot.CheckAndSendNotifications today db) ->
  exists row s e,
    In row (users db)
    /\ month (birthday row) = month today /\ day (birthday row) = day today
    /\ In e (subscribes db) /\ userID e = id row /\ subscriberID e = id s
    /\ In s (users db) /\ telegramID s = Some (tgbotapi.To m)
    /\ tgbotapi.Content m = greeting (displayName (profile row)).
Proof.
  unfold bot.CheckAndSendNotifications. rewrite GetUserByBirthday_rows.
  destruct (user.selectByBirthday db (month today) (day today)) as [|r0 rows] eqn:E;
    [contradiction|].
  cbn beta iota. rewrite cycle_append. rewrite app_nil_l, <- E.
  intros Hm. apply in_flat_map in Hm. destruct Hm as [u [Hu Hm]].
  apply in_map_iff in Hu. destruct Hu as [row [<- Hrow]].
  unfold user.selectByBirthday in Hrow. apply filter_In in Hrow.
  destruct Hrow as [Hrow Hdate]. apply andb_true_iff in Hdate.
  destruct Hdate as [Hmonth Hday]. apply Z.eqb_eq in Hmonth, Hday.
  unfold bot.notifySubscribers in Hm.
  destruct (user.GetSubscribedUsers (user.ID (profile row)) db) as [subs [err|]] eqn:G;
    [contradiction|].
  apply GetSubscribedUsers_accepts in G. destruct G as [Hall ->].
  rewrite sends_append, app_nil_l, map_map in Hm.
  apply in_map_iff in Hm. destruct Hm as [s [<- Hs]].
  pose proof (proj1 (Forall_forall _ _) Hall s Hs) as Hbound.
  destruct (telegramID s) as [account|] eqn:Hacc; [|congruence].
  unfold user.selectSubscribers in Hs. apply in_flat_map in Hs.
  destruct Hs as [e [He Hs]]. apply filter_In in He, Hs.
  destruct He as [He Huid], Hs as [Hs Hsub]. apply Z.eqb_eq in Huid, Hsub.
  exists row, s, e. simpl. rewrite (subscriber_account s account Hacc).
  repeat split; try assumption; congruence.
Qed.

Lemma prefix_of_three (a b c : ascii) (p text : string) :
  String.prefix (String a (String b (String c p))) text = true ->
  exists t, text = String a (String b (String c t)).
Proof.
  intros H. destruct text as [|x [|y [|z t]]]; simpl in H;
    repeat match type of H with
           | context [Ascii.ascii_dec ?u ?v] =>
               destruct (Ascii.ascii_dec u v); [subst|discriminate]
           end; try discriminate.
  now exists t.
Qed.

Lemma one_command (text : string) (e1 e2 : string * bot.Handler) :
  In e1 bot.commandHandlers -> In e2 bot.commandHandlers ->
  HasPrefix text (fst e1) = true -> HasPrefix text (fst e2) = true -> e1 = e2.
Proof.
  unfold HasPrefix.
  intros [<-|[<-|[<-|[<-|[]]]]] [<-|[<-|[<-|[<-|[]]]]] H1 H2; try reflexivity;
    cbn [fst] in H1, H2; apply prefix_of_three in H1, H2;
    destruct H1 as [t1 ->], H2 as [t2 H2]; discriminate H2.
Qed.

Lemma find_command_in_any_order (text : string) (order : list (string * bot.Handler)) :
  Permutation order bot.commandHandlers ->
  find (fun entry => HasPrefix text (fst entry)) order
  = find (fun entry => HasPrefix text (fst entry)) bot.commandHandlers.
Proof.
  intros Hperm.
  destruct (find (fun entry => HasPrefix text (fst entry)) bot.commandHandlers)
    as [x|] eqn:E.
  - apply find_some in E. destruct E as [Hx Hfx].
    apply (find_in_any_order _ order bot.commandHandlers x Hperm Hx Hfx).
    intros y Hy Hfy. now apply (one_command text).
  - destruct (find (fun entry => HasPrefix text (fst entry)) order) as [y|] eqn:E';
      [|reflexivity].
    apply find_some in E'. destruct E' as [Hy Hfy].
    apply (Permutation_in _ Hperm) in Hy.
    rewrite (find_none _ _ E y Hy) in Hfy. discriminate.
Qed.

(** X12. The order in which Go walks the map [commandHandlers] does not
    matter: a text starts with at most one of the four commands, so every
    order gives the result of the order written in the source; and an
    update whose text starts with none of them gets no reply and changes
    nothing. *)
Theorem dispatch_order_is_irrelevant (order : list (string * bot.Handler))
    (update : tgbotapi.Update) (db : Database) :
  Permutation order bot.commandHandlers ->
  bot.updateHandler order update db = bot.updateHandler bot.commandHandlers update db
  /\ ((forall m entry, tgbotapi.Message update = Some m -> In entry bot.commandHandlers ->
         HasPrefix (tgbotapi.Text m) (fst entry) = false) ->
      bot.updateHandler order update db = (Done [], db)).
Proof.
  intros Hperm. unfold bot.updateHandler.
  destruct (tgbotapi.Message update) as [m|]; [|split; reflexivity].
  rewrite !dispatch_find, (find_command_in_any_order _ _ Hperm).
  split; [reflexivity|].
  intros Hnone.
  destruct (find (fun entry => HasPrefix (tgbotapi.Text m) (fst entry)) bot.commandHandlers)
    as [x|] eqn:E; [|reflexivity].
  apply find_some in E. destruct E as [Hx Hfx].
  rewrite (Hnone m x eq_refl Hx) in Hfx. discriminate.
Qed.

(** X13. [subscribeHandler], when it does not panic, answers with exactly
    one message, sent to the chat of the update; and it changes the tables
    in one way only: by appending to [subscribes] one row whose subscriber
    is a user with the telegram handle [@] + the sender's user name. *)
Theorem subscribe_command_records_sender (update : tgbotapi.Update) (db db' : Database)
    (replies : list tgbotapi.MessageConfig) :
  bot.subscribeHandler update db = (Done replies, db') ->
  (exists m text,
     tgbotapi.Message update = Some m
     /\ replies = [tgbotapi.NewMessage (tgbotapi.ChatID (tgbotapi.Chat m)) text])
  /\ (db' = db
      \/ exists from row target,
           sender update = Some from
           /\ In row (users db)
           /\ collate (telegram row) ("@" +++ tgbotapi.UserName from) = true
           /\ users db' = users db
           /\ subscribes db' = subscribes db ++ [edge db target (id row)]).
Proof.
  unfold bot.subscribeHandler, bot.subscriptionCommand, sender.
  destruct (tgbotapi.Message update) as [m|]; [|discriminate].
  destruct (slice_from (tgbotapi.Text m) 11) as [argument|p]; [|discriminate].
  destruct (Atoi argument) as [target [e|]].
  { intros H. inversion H. split; [eauto | now left]. }
  destruct (tgbotapi.From m) as [from|]; [|discriminate].
  unfold user.GetUserByTelegram.
  destruct (user.QueryRow (user.selectByTelegram db ("@" +++ tgbotapi.UserName from)))
    as [row|] eqn:Hq.
  2:{ intros H. inversion H. split; [eauto | now left]. }
  apply first_row_matches in Hq. destruct Hq as [Hrow Hhandle].
  cbn beta iota. cbn [user.ID].
  destruct (user.Subscribe target (id row) 1 db) as [[subUser [e|]] db1] eqn:Hsub.
  - intros H. inversion H; subst. split; [eauto|]. left.
    unfold user.Subscribe in Hsub.
    destruct (user.QueryRow (user.selectByID db target)) as [found|] eqn:Hfound;
      [|now inversion Hsub].
    apply QueryRow_id in Hfound. destruct Hfound as [Hfound Hid].
    simpl in Hsub.
    destruct (user.insertSubscribe target (id row) db) as [[|] d] eqn:Hins;
      [now inversion Hsub|].
    apply insertSubscribe_refused in Hins. destruct Hins as (_ & _ & _ & _ & Hkeys).
    assert (H1 : existsb (fun r => id r =? target) (users db) = true).
    { apply existsb_exists. exists found. split; [assumption | now apply Z.eqb_eq]. }
    assert (H2 : existsb (fun r => id r =? id row) (users db) = true).
    { apply existsb_exists. exists row. split; [assumption | apply Z.eqb_refl]. }
    rewrite H1, H2 in Hkeys. discriminate.
  - destruct subUser as [subUser|]; [|discriminate].
    intros H. inversion H; subst. split; [eauto|]. right.
    apply Subscribe_success in Hsub. destruct Hsub as (_ & _ & ->).
    exists from, row, target. repeat split; assumption.
Qed.

Lemma subscriptionCommand_panics (offset : nat) (typeOf : Z) (reply : string)
    (m : tgbotapi.TgMessage) (from : tgbotapi.TgUser) (db : Database) :
  tgbotapi.From m = Some from ->
  isPanic (fst (bot.subscriptionCommand offset typeOf reply
                  {| tgbotapi.Message := Some m |} db))
  = negb (offset <=? String.length (tgbotapi.Text m))%nat.
Proof.
  intros Hfrom. unfold bot.subscriptionCommand. cbn [tgbotapi.Message].
  unfold slice_from.
  destruct (offset <=? String.length (tgbotapi.Text m))%nat; [|reflexivity].
  destruct (Atoi (drop_bytes offset (tgbotapi.Text m))) as [target [e|]]; [reflexivity|].
  rewrite Hfrom. unfold user.GetUserByTelegram.
  destruct (user.QueryRow (user.selectByTelegram db ("@" +++ tgbotapi.UserName from)))
    as [row|]; [|reflexivity].
  cbn beta iota. unfold user.Subscribe.
  destruct (user.QueryRow (user.selectByID db target)); [|reflexivity].
  destruct (typeOf =? 1).
  - destruct (user.insertSubscribe _ _ db) as [[|] d]; reflexivity.
  - destruct (typeOf =? 0); reflexivity.
Qed.

(** X14. For a message that has a sender, [subscribeHandler] panics exactly
    when the text has fewer than 11 bytes, and [unsubscribeHandler] exactly
    when it has fewer than 13: with the blank after the command in place,
    every outcome of the parsing and of the repository is answered. *)
Theorem subscription_commands_panic_iff_short (m : tgbotapi.TgMessage)
    (from : tgbotapi.TgUser) (db : Database) :
  tgbotapi.From m = Some from ->
  (isPanic (fst (bot.subscribeHandler {| tgbotapi.Message := Some m |} db)) = true
   <-> (String.length (tgbotapi.Text m) < 11)%nat)
  /\
  (isPanic (fst (bot.unsubscribeHandler {| tgbotapi.Message := Some m |} db)) = true
   <-> (String.length (tgbotapi.Text m) < 13)%nat).
Proof.
  intros Hfrom. unfold bot.subscribeHandler, bot.unsubscribeHandler.
  rewrite !(subscriptionCommand_panics _ _ _ m from db Hfrom).
  split; rewrite negb_true_iff, Nat.leb_gt; reflexivity.
Qed.

Lemma replies_append (chat : Z) (us : list user.User)
    (messages : list tgbotapi.MessageConfig) :
  fold_left (fun messages u => messages ++ [tgbotapi.NewMessage chat (listing u)])
            us messages
  = messages ++ map (fun u => tgbotapi.NewMessage chat (listing u)) us.
Proof.
  revert messages. induction us as [|u us IH]; intros messages; simpl.
  - now rewrite app_nil_r.
  - rewrite IH, <- app_assoc. reflexivity.
Qed.

(** X15. [usersListHandler] answers a message with one reply for every row
    of [users], in the order of the table, each sent to the chat of the
    message and describing that row; on an empty table there is no reply.
    The tables are left as they are. *)
Theorem users_command_lists_every_user (m : tgbotapi.TgMessage) (db : Database) :
  bot.usersListHandler {| tgbotapi.Message := Some m |} db
  = (Done (map (fun row => tgbotapi.NewMessage (tgbotapi.ChatID (tgbotapi.Chat m))
                                               (listing (profile row)))
               (users db)), db).
Proof.
  unfold bot.usersListHandler, user.GetUsers. rewrite scanRows_profile.
  destruct (users db) as [|row rows]; [reflexivity|].
  cbn [app map List.length Nat.eqb tgbotapi.Message].
  change (fun messages u => messages ++ [tgbotapi.NewMessage _ _])
    with (fun messages u => messages ++
            [tgbotapi.NewMessage (tgbotapi.ChatID (tgbotapi.Chat m)) (listing u)]).
  rewrite replies_append, app_nil_l. cbn [map]. rewrite map_map. reflexivity.
Qed.

(** X20. [/start] binds once: when [UpdateUser] accepts the id and the
    user name of the sender, [startHandler] answers with the welcome text;
    the same update on the tables left behind is answered with the error
    [no rows updated], and changes nothing. *)
Theorem start_command_binds_once (m : tgbotapi.TgMessage) (from : tgbotapi.TgUser)
    (db db1 : Database) :
  tgbotapi.From m = Some from ->
  user.UpdateUser (tgbotapi.ID from) (tgbotapi.UserName from) db = (None, db1) ->
  bot.startHandler {| tgbotapi.Message := Some m |} db
  = (Done [tgbotapi.NewMessage (tgbotapi.ChatID (tgbotapi.Chat m))
             ("Добро пожаловать. Напишите /users, чтобы увидеть всех пользователей."
              +++ newline +++
              "Напишите /subscribe или /unsubscribe, а после id для подписки отписки на пользователя."
              +++ newline +++
              "Например, /subscribe 1")],
     db1)
  /\ bot.startHandler {| tgbotapi.Message := Some m |} db1
     = (Done [tgbotapi.NewMessage (tgbotapi.ChatID (tgbotapi.Chat m)) "no rows updated"],
        db1).
Proof.
  intros Hfrom Hupd. pose proof (UpdateUser_again _ _ _ _ Hupd) as Hagain.
  unfold bot.startHandler. cbn [tgbotapi.Message]. rewrite Hfrom, Hupd, Hagain.
  split; reflexivity.
Qed.

End FurtherBotFacts.

(** * Further facts about the HTTP handlers *)
Section FurtherHandlerFacts.
Context {R S : Type} {Repo : UserRepo.UserRepo R} {Store : sessions.SessionManagerInterface S}.

(** X16. A [Login] whose password field is not empty and whose credentials
    [Authorize] accepts calls [Sessions.Create] once, with the id and the
    username of the user [Authorize] has returned and the user agent of the
    request.  When the store returns a session the answer is 200 with the
    token of that session; when the store returns an error the answer is
    500 with an empty body.  Nothing else is called. *)
Theorem Login_issues_session (r : handlers.Request handlers.AuthForm)
    (h : handlers.UserHandler R S) (af : handlers.AuthForm) (u : user.User) (repo' : R) :
  handlers.Body r = handlers.Decoded af ->
  handlers.af_Password af <> "" ->
  UserRepo.Authorize (handlers.af_Username af) (handlers.af_Password af) (handlers.UserRepo h)
    = ((Some u, None), repo') ->
  let after store :=
    {| handlers.UserRepo := repo'; handlers.Sessions := store;
       handlers.Journal := handlers.Journal h ++
         [handlers.CallAuthorize (handlers.af_Username af) (handlers.af_Password af);
          handlers.CallCreate (sessionOf u (handlers.UserAgent r))] |} in
  (forall sess store,
     sessions.Create (sessionOf u (handlers.UserAgent r)) (handlers.Sessions h)
       = ((Some sess, None), store) ->
     handlers.Login r h
     = (Done {| handlers.StatusCode := handlers.StatusOK;
                handlers.Written := handlers.JSONSession (sessions.Token sess) |},
        after store))
  /\
  (forall sess e store,
     sessions.Create (sessionOf u (handlers.UserAgent r)) (handlers.Sessions h)
       = ((sess, Some e), store) ->
     handlers.Login r h
     = (Done {| handlers.StatusCode := handlers.StatusInternalServerError;
                handlers.Written := handlers.NoBody |},
        after store)).
Proof.
  intros Hbody Hpass Hauth after.
  assert (Hvalid : handlers.dataValidation af = []).
  { unfold handlers.dataValidation, handlers.requiredFields, handlers.AuthForm_Validated.
    apply String.eqb_neq in Hpass. simpl. now rewrite Hpass. }
  split.
  - intros sess store Hcreate. unfold handlers.Login.
    rewrite Hbody, Hvalid. cbn [handlers.is_nil negb].
    unfold handlers.onRepo. rewrite Hauth. cbn [err_is].
    unfold handlers.issueSession, handlers.onSessions. cbn [handlers.Sessions].
    fold (sessionOf u (handlers.UserAgent r)). rewrite Hcreate.
    unfold after. cbn [handlers.UserRepo handlers.Journal].
    rewrite <- app_assoc. reflexivity.
  - intros sess e store Hcreate. unfold handlers.Login.
    rewrite Hbody, Hvalid. cbn [handlers.is_nil negb].
    unfold handlers.onRepo. rewrite Hauth. cbn [err_is].
    unfold handlers.issueSession, handlers.onSessions. cbn [handlers.Sessions].
    fold (sessionOf u (handlers.UserAgent r)). rewrite Hcreate.
    unfold after. cbn [handlers.UserRepo handlers.Journal].
    rewrite <- app_assoc. reflexivity.
Qed.

Lemma validation_messages {Form : Type} `{handlers.Validated Form} (fd : Form) :
  Forall (fun fe => handlers.msg fe = "is required") (handlers.dataValidation fd).
Proof.
  unfold handlers.dataValidation. apply Forall_forall.
  intros fe Hfe. apply in_map_iff in Hfe. destruct Hfe as [x [<- _]]. reflexivity.
Qed.

(** X17. [Register] never reports a taken username as a field error: the
    entry [already exists] is appended only after the return on
    [err != nil], where the error is nil.  Every list of field errors that
    [Register] writes consists of [is required] entries; and when
    [MakeUser] returns an error, [ErrExists] included, the answer is 400
    with the message of that error as its text, and no session is
    created. *)
Theorem Register_never_reports_duplicate :
  (forall (r : handlers.Request handlers.RegForm) (h : handlers.UserHandler R S) resp errors,
     fst (handlers.Register r h) = Done resp ->
     handlers.Written resp = handlers.JSONErrors errors ->
     Forall (fun fe => handlers.msg fe = "is required") errors)
  /\
  (forall (r : handlers.Request handlers.RegForm) (h : handlers.UserHandler R S)
          rf u e repo',
     handlers.Body r = handlers.Decoded rf ->
     handlers.dataValidation rf = [] ->
     UserRepo.MakeUser (handlers.rf_Username rf) (handlers.rf_Password rf)
       (handlers.rf_FirstName rf) (handlers.rf_MiddleName rf) (handlers.rf_LastName rf)
       (handlers.rf_Birthday rf) (handlers.rf_Telegram rf) (handlers.UserRepo h)
       = ((u, Some e), repo') ->
     fst (handlers.Register r h)
     = Done (handlers.http_Error (Error e) handlers.StatusBadRequest)
     /\ handlers.Sessions (snd (handlers.Register r h)) = handlers.Sessions h).
Proof.
  split.
  - intros r h resp errors. unfold handlers.Register.
    destruct (handlers.Body r) as [| |rf].
    + intros H. inversion H. discriminate.
    + intros H. inversion H. discriminate.
    + destruct (handlers.dataValidation rf) as [|fe rest] eqn:Hvalid.
      * cbn [List.length Nat.ltb Nat.leb]. unfold handlers.onRepo.
        destruct (UserRepo.MakeUser _ _ _ _ _ _ _ _) as [[u [e|]] repo'].
        -- intros H. inversion H. discriminate.
        -- cbn [err_is handlers.is_nil negb]. destruct u as [u|].
           ++ unfold handlers.issueSession, handlers.onSessions.
              destruct (sessions.Create _ _) as [[sess [e|]] store].
              ** intros H. inversion H. discriminate.
              ** destruct sess; intros H; inversion H. discriminate.
           ++ discriminate.
      * cbn [List.length Nat.ltb Nat.leb]. intros H. inversion H.
        intros Hw. inversion Hw. rewrite <- Hvalid. apply validation_messages.
  - intros r h rf u e repo' Hbody Hvalid Hmake. unfold handlers.Register.
    rewrite Hbody, Hvalid. cbn [List.length Nat.ltb Nat.leb].
    unfold handlers.onRepo. rewrite Hmake. split; reflexivity.
Qed.

(** X18. The three protected routes never panic, whatever the request and
    whatever the two collaborators return: the slice [token[7:]] is taken
    only behind the check of the seven-byte prefix. *)
Theorem protected_routes_never_panic (typeOf : Z) (h : handlers.UserHandler R S)
    (lr : handlers.Request unit) (sr : handlers.Request handlers.SubscribeForm) :
  isPanic (fst (handlers.GetUsers lr h)) = false
  /\ isPanic (fst (handlers.subscription typeOf sr h)) = false.
Proof.
  split.
  - unfold handlers.GetUsers.
    destruct (HasPrefix (handlers.Authorization lr) "Bearer ") eqn:Hprefix.
    + rewrite (authorizeRequest_checked _ _ Hprefix).
      destruct (fst (sessions.Check _ _)); [|reflexivity].
      unfold handlers.onRepo.
      destruct (UserRepo.GetUsers _) as [[us [e|]] repo']; reflexivity.
    + now rewrite (authorizeRequest_no_prefix _ _ Hprefix).
  - unfold handlers.subscription.
    destruct (HasPrefix (handlers.Authorization sr) "Bearer ") eqn:Hprefix.
    + rewrite (authorizeRequest_checked _ _ Hprefix).
      destruct (fst (sessions.Check _ _)); [|reflexivity].
      destruct (handlers.Body sr) as [| |sf]; try reflexivity.
      destruct (0 <? List.length (handlers.dataValidation sf))%nat; [reflexivity|].
      unfold handlers.onRepo.
      destruct (UserRepo.Subscribe _ _ _ _) as [[u [e|]] repo']; reflexivity.
    + now rewrite (authorizeRequest_no_prefix _ _ Hprefix).
Qed.

End FurtherHandlerFacts.

(** * The subscription route on the MySQL repository *)
Section SubscriptionRoute.
Context {P : Platform} {S : Type} {Store : sessions.SessionManagerInterface S}.

Lemma Subscribe_accepts (uid sub : Z) (db : Database) :
  (exists t, In t (users db) /\ id t = uid) ->
  (exists s, In s (users db) /\ id s = sub) ->
  exists u,
    user.Subscribe uid sub 1 db
    = ((Some u, None),
       {| users := users db; usersAutoInc := usersAutoInc db;
          subscribes := subscribes db ++ [edge db uid sub];
          subscribesAutoInc := subscribesAutoInc db + 1 |}).
Proof.
  intros Ht [s [Hs Hsid]].
  destruct (QueryRow_found db uid Ht) as [row Hq].
  destruct Ht as [t [Ht Htid]].
  unfold user.Subscribe. rewrite Hq. simpl. unfold user.insertSubscribe.
  assert (H1 : existsb (fun r => id r =? uid) (users db) = true).
  { apply existsb_exists. exists t. split; [assumption | now apply Z.eqb_eq]. }
  assert (H2 : existsb (fun r => id r =? sub) (users db) = true).
  { apply existsb_exists. exists s. split; [assumption | now apply Z.eqb_eq]. }
  rewrite H1, H2. simpl. eexists. reflexivity.
Qed.

Lemma Subscribe_refuses (uid sub : Z) (db : Database) :
  (forall t, In t (users db) -> id t <> uid) \/ (forall s, In s (users db) -> id s <> sub) ->
  exists e d,
    user.Subscribe uid sub 1 db = ((None, Some e), d)
    /\ users d = users db /\ subscribes d = subscribes db.
Proof.
  intros Hmissing. unfold user.Subscribe.
  destruct (user.QueryRow (user.selectByID db uid)) as [row|] eqn:Hq;
    [|exists ErrNoUser, db; now repeat split].
  simpl.
  destruct (user.insertSubscribe uid sub db) as [[|] d] eqn:Hins.
  - exfalso. apply insertSubscribe_done in Hins. destruct Hins as [Hsub _].
    apply existsb_exists in Hsub. destruct Hsub as [s [Hs Hsid]]. apply Z.eqb_eq in Hsid.
    apply QueryRow_id in Hq. destruct Hq as [Hin Hid].
    destruct Hmissing as [Hnone | Hnone]; [now apply (Hnone row) | now apply (Hnone s)].
  - apply insertSubscribe_refused in Hins. destruct Hins as (Hu & Hs & _).
    exists ErrExists, d. now repeat split.
Qed.

(** X19. [SubscribeToUser] on the MySQL repository, for a request that
    the guard accepts and whose body names two non-zero ids: when both ids
    are ids of users, the answer is 200 with an empty body and the one row
    for the two ids of the body joins [subscribes]; when either is not, the
    answer is the generic 400 of [ErrBadRequest], whichever of the two was
    unknown, and every row of both tables is as it was. *)
Theorem HTTP_subscribe_outcomes
    (h : handlers.UserHandler UserRepo.UserMysqlRepository S)
    (r : handlers.Request handlers.SubscribeForm) (sf : handlers.SubscribeForm) :
  HasPrefix (handlers.Authorization r) "Bearer " = true ->
  fst (sessions.Check (bearerKey (handlers.Authorization r)) (handlers.Sessions h)) <> None ->
  handlers.Body r = handlers.Decoded sf ->
  handlers.sf_UserID sf <> 0 -> handlers.sf_SubscriberID sf <> 0 ->
  let db := UserRepo.DB (handlers.UserRepo h) in
  let db' := UserRepo.DB (handlers.UserRepo (snd (handlers.SubscribeToUser r h))) in
  ((exists t, In t (users db) /\ id t = handlers.sf_UserID sf) ->
   (exists s, In s (users db) /\ id s = handlers.sf_SubscriberID sf) ->
   fst (handlers.SubscribeToUser r h)
   = Done {| handlers.StatusCode := handlers.StatusOK; handlers.Written := handlers.NoBody |}
   /\ users db' = users db
   /\ subscribes db'
      = subscribes db ++ [edge db (handlers.sf_UserID sf) (handlers.sf_SubscriberID sf)])
  /\
  ((forall t, In t (users db) -> id t <> handlers.sf_UserID sf)
   \/ (forall s, In s (users db) -> id s <> handlers.sf_SubscriberID sf) ->
   fst (handlers.SubscribeToUser r h)
   = Done (handlers.http_Error handlers.ErrBadRequest handlers.StatusBadRequest)
   /\ users db' = users db /\ subscribes db' = subscribes db).
Proof.
  intros Hprefix Hcheck Hbody Hu Hs db db'. subst db'.
  unfold handlers.SubscribeToUser, handlers.subscription.
  rewrite (authorizeRequest_checked _ _ Hprefix).
  destruct (fst (sessions.Check _ _)) as [sess|]; [|congruence].
  rewrite Hbody.
  unfold handlers.dataValidation, handlers.requiredFields, handlers.SubscribeForm_Validated.
  apply Z.eqb_neq in Hu, Hs. cbn [filter map snd fst]. rewrite Hu, Hs.
  cbn [filter map List.length Nat.ltb Nat.leb].
  unfold handlers.onRepo, afterCheck. cbn [handlers.UserRepo UserRepo.Subscribe UserRepo.Mysql].
  fold db. split.
  - intros Ht Hsub.
    destruct (Subscribe_accepts _ _ db Ht Hsub) as [u ->]. repeat split.
  - intros Hmissing.
    destruct (Subscribe_refuses _ _ db Hmissing) as (e & d & -> & Hrows & Hsubs).
    repeat split; assumption.
Qed.

End SubscriptionRoute.

(** * The further statements at work on the small deployment *)
Section FurtherExamples.
Import Scenario Scenes.

Lemma db_one_sound : Sound db_one.
Proof.
  split.
  - simpl. repeat constructor; simpl; intuition discriminate.
  - intros row [<-|[<-|[]]]; reflexivity.
  - intros e [<-|[]]. split; [exists alice | exists bob]; simpl; auto.
Qed.

Lemma dave_registers :
  user.MakeUser "s" "dave" "pw" "Dave" "" "D" "2000-02-29" "@dave" db_one
  = ((Some (registered 3 "dave"), None), db_dave).
Proof. reflexivity. Qed.

Lemma dave_follows_alice :
  user.Subscribe 1 (user.ID (registered 3 "dave")) 1 db_dave
  = ((Some (publicIdentity alice), None), snd (user.Subscribe 1 3 1 db_dave)).
Proof. reflexivity. Qed.

Lemma carol_binds :
  user.UpdateUser 1003 "carol" db_unbound
  = (None, snd (user.UpdateUser 1003 "carol" db_unbound)).
Proof. reflexivity. Qed.

Lemma carol_subscribes :
  bot.subscribeHandler {| tgbotapi.Message := Some (carolWrites "/subscribe 1") |} db_unbound
  = (Done [tgbotapi.NewMessage 1003 "Вы подписались на @alice"],
     snd (bot.subscribeHandler
            {| tgbotapi.Message := Some (carolWrites "/subscribe 1") |} db_unbound)).
Proof. reflexivity. Qed.

(** X1, witness: the refused subscription of the unknown 999. *)
Lemma refused_calls_keep_every_row_witness :
  users (snd (user.Subscribe 1 999 1 db_one)) = users db_one
  /\ subscribes (snd (user.Subscribe 1 999 1 db_one)) = subscribes db_one.
Proof.
  destruct (refused_calls_keep_every_row db_one (snd (user.Subscribe 1 999 1 db_one))
              ErrExists) as (_ & Hsub & _).
  exact (proj2 (Hsub 1 999 1 None eq_refl)).
Defined.

(** X3, witness: Dave registers, and a second Dave is refused. *)
Lemma second_registration_refused_witness :
  fst (user.MakeUser "t" "dave" "other" "David" "" "E" "2001-01-01" "@david" db_dave)
  = (None, Some ErrExists)
  /\ users (snd (user.MakeUser "t" "dave" "other" "David" "" "E" "2001-01-01" "@david"
                               db_dave))
     = users db_dave.
Proof.
  destruct (second_registration_refused "s" "dave" "pw" "Dave" "" "D" "2000-02-29" "@dave"
              "t" "dave" "other" "David" "" "E" "2001-01-01" "@david"
              db_one db_dave (registered 3 "dave") dave_registers (or_introl eq_refl))
    as (e & db2 & Hrefused & Hrows & _ & He).
  rewrite Hrefused, (He eq_refl). split; [reflexivity | exact Hrows].
Defined.

(** X4, witness: Dave registers and logs in. *)
Lemma register_then_login_witness :
  snd (user.Authorize "dave" "pw" db_dave) = None
  /\ option_map user.ID (fst (user.Authorize "dave" "pw" db_dave)) = Some 3.
Proof.
  destruct (register_then_login (P := platform) "s" "dave" "pw" "Dave" "" "D" "2000-02-29" "@dave"
              db_one db_dave (registered 3 "dave") eq_refl)
    as [u' (Hlogin & Hid & _)].
  - intros hash Hgen. inversion Hgen. reflexivity.
  - exact dave_registers.
  - rewrite Hlogin. simpl. rewrite Hid. split; reflexivity.
Defined.

(** X5, witness: Bob, who follows Alice, subscribes to her once more. *)
Lemma Subscribe_is_counted_witness :
  subscriptionsOf (snd (user.Subscribe 1 2 1 db_one)) 1 2 = 2%nat.
Proof.
  destruct (Subscribe_is_counted 1 2 db_one (snd (user.Subscribe 1 2 1 db_one))
              (publicIdentity alice) eq_refl) as (_ & _ & Hcount & _).
  rewrite Hcount. reflexivity.
Defined.

(** X6, witness: Bob, subscribed twice, unsubscribes once. *)
Lemma Unsubscribe_removes_every_copy_witness :
  subscriptionsOf (snd (user.Subscribe 1 2 0 db_twice)) 1 2 = 0%nat.
Proof.
  destruct (Unsubscribe_removes_every_copy 1 2 db_twice) as (u & db1 & Hun & _ & _ & Hzero & _).
  - exists alice. split; [now left | reflexivity].
  - rewrite Hun. exact Hzero.
Defined.

(** X7, witness: Bob subscribes to Alice and unsubscribes again. *)
Lemma Subscribe_Unsubscribe_round_trip_witness :
  subscribes (snd (user.Subscribe 1 2 0 (snd (user.Subscribe 1 2 1 db_quiet))))
  = subscribes db_quiet.
Proof.
  destruct (Subscribe_Unsubscribe_round_trip 1 2 db_quiet
              (snd (user.Subscribe 1 2 1 db_quiet)) (publicIdentity alice) eq_refl eq_refl)
    as (db2 & Hun & _ & Hrows).
  rewrite Hun. exact Hrows.
Defined.

(** X8, witness: the tables stay sound when Dave registers. *)
Lemma repository_keeps_tables_sound_witness : Sound db_dave.
Proof.
  destruct (repository_keeps_tables_sound db_one db_one_sound) as (Hmake & _ & _).
  apply (Hmake "s" "dave" "pw" "Dave" "" "D" "2000-02-29" "@dave").
Defined.

(** X9, witness: Dave registers and subscribes to Alice; Bob, who follows
    her too, gets nothing on her birthday. *)
Lemma new_subscriber_silences_target_witness :
  bot.CheckAndSendNotifications june15 (snd (user.Subscribe 1 3 1 db_dave)) = [].
Proof.
  destruct (new_subscriber_silences_target "s" "dave" "pw" "Dave" "" "D" "2000-02-29" "@dave"
              db_one db_dave (snd (user.Subscribe 1 3 1 db_dave))
              (registered 3 "dave") (publicIdentity alice) 1 dave_registers
              dave_follows_alice)
    as [_ Hsilent].
  change (bot.CheckAndSendNotifications june15 (snd (user.Subscribe 1 3 1 db_dave)))
    with (bot.notifySubscribers (snd (user.Subscribe 1 3 1 db_dave)) [] (profile alice)).
  apply Hsilent. reflexivity.
Defined.

(** X10, witness: Carol binds her account; the second attempt is an
    error. *)
Lemma UpdateUser_binds_once_witness :
  fst (user.UpdateUser 1003 "carol" db_unbound) = None
  /\ user.UpdateUser 1003 "carol" (snd (user.UpdateUser 1003 "carol" db_unbound))
     = (Some (ErrOther "no rows updated"), snd (user.UpdateUser 1003 "carol" db_unbound)).
Proof.
  split; [reflexivity|].
  destruct (UpdateUser_binds_once 1003 "carol" db_unbound) as [_ Hbound].
  destruct (Hbound (snd (user.UpdateUser 1003 "carol" db_unbound)) carol_binds)
    as (_ & _ & _ & _ & _ & Hagain).
  exact Hagain.
Defined.

(** X11, witness: the one message of Alice's birthday goes to Bob. *)
Lemma cycle_writes_only_to_followers_witness :
  exists row s e,
    In row (users db_one)
    /\ month (birthday row) = 6 /\ day (birthday row) = 15
    /\ In e (subscribes db_one) /\ userID e = id row /\ subscriberID e = id s
    /\ In s (users db_one) /\ telegramID s = Some 1002
    /\ greeting "Alice P Liddell" = greeting (displayName (profile row)).
Proof.
  apply (cycle_writes_only_to_followers june15 db_one
           (tgbotapi.NewMessage 1002 (greeting "Alice P Liddell"))).
  now left.
Defined.

(** X12, witness: the map walked backwards. *)
Lemma dispatch_order_is_irrelevant_witness :
  bot.updateHandler (rev bot.commandHandlers) {| tgbotapi.Message := Some (carolWrites "/users") |}
                    db_one
  = bot.updateHandler bot.commandHandlers {| tgbotapi.Message := Some (carolWrites "/users") |}
                      db_one.
Proof.
  apply dispatch_order_is_irrelevant.
  apply Permutation_sym, Permutation_rev.
Defined.

(** X13, witness: Carol subscribes to Alice through the bot. *)
Lemma subscribe_command_records_sender_witness :
  subscribes (snd (bot.subscribeHandler
                     {| tgbotapi.Message := Some (carolWrites "/subscribe 1") |} db_unbound))
  = subscribes db_unbound
  \/ exists target row,
       In row (users db_unbound) /\ telegram row = "@carol"
       /\ subscribes (snd (bot.subscribeHandler
                             {| tgbotapi.Message := Some (carolWrites "/subscribe 1") |}
                             db_unbound))
          = subscribes db_unbound ++ [edge db_unbound target (id row)].
Proof.
  destruct (subscribe_command_records_sender
              {| tgbotapi.Message := Some (carolWrites "/subscribe 1") |} db_unbound
              (snd (bot.subscribeHandler
                      {| tgbotapi.Message := Some (carolWrites "/subscribe 1") |} db_unbound))
              [tgbotapi.NewMessage 1003 "Вы подписались на @alice"] carol_subscribes)
    as [_ [Hsame | (from & row & target & Hsender & Hrow & Hhandle & _ & Hrows)]].
  - left. now rewrite <- Hsame.
  - right. exists target, row. split; [assumption|]. split; [|assumption].
    inversion Hsender; subst from.
    inversion_clear Hrow as [Hr | [Hr | [Hr | []]]]; subst row; try discriminate Hhandle.
    reflexivity.
Defined.

(** X14, witness: [/subscribe] alone is too short, [/subscribe 1] is not. *)
Lemma subscription_commands_panic_iff_short_witness :
  isPanic (fst (bot.subscribeHandler
                  {| tgbotapi.Message := Some (carolWrites "/subscribe") |} db_one)) = true
  /\ isPanic (fst (bot.subscribeHandler
                     {| tgbotapi.Message := Some (carolWrites "/subscribe 1") |} db_one))
     <> true.
Proof.
  destruct (subscription_commands_panic_iff_short (carolWrites "/subscribe")
              {| tgbotapi.ID := 1003; tgbotapi.UserName := "carol" |} db_one eq_refl)
    as [Hshort _].
  destruct (subscription_commands_panic_iff_short (carolWrites "/subscribe 1")
              {| tgbotapi.ID := 1003; tgbotapi.UserName := "carol" |} db_one eq_refl)
    as [Hlong _].
  split.
  - apply Hshort. simpl. lia.
  - intros Hpanic. apply Hlong in Hpanic. simpl in Hpanic. lia.
Defined.

(** X16, witness: Alice logs in. *)
Lemma Login_issues_session_witness :
  fst (handlers.Login (login "alice" "wonderland") (service db_one))
  = Done {| handlers.StatusCode := 200; handlers.Written := handlers.JSONSession "token-1" |}.
Proof.
  assert (Haccepted : UserRepo.Authorize "alice" "wonderland"
                        (handlers.UserRepo (service db_one))
                      = ((Some (credentials alice), None), repo db_one)) by reflexivity.
  destruct (Login_issues_session (login "alice" "wonderland") (service db_one)
              {| handlers.af_Username := "alice"; handlers.af_Password := "wonderland" |}
              (credentials alice) (repo db_one) eq_refl ltac:(discriminate) Haccepted)
    as [Hissued _].
  assert (Hcreate : sessions.Create (sessionOf (credentials alice) "curl")
                                    (handlers.Sessions (service db_one))
                    = ((Some {| sessions.Token := "token-1" |}, None),
                       ("token-1", sessionOf (credentials alice) "curl")
                       :: handlers.Sessions (service db_one))) by reflexivity.
  rewrite (Hissued _ _ Hcreate). reflexivity.
Defined.

(** X17, witness: registering as [alice] again gets the plain 400. *)
Lemma Register_never_reports_duplicate_witness :
  fst (handlers.Register
         (registerRequest "alice" "pw" "Alice" "Other" "2000-01-01" "@other")
         (service db_one))
  = Done (handlers.http_Error "already exists" handlers.StatusBadRequest).
Proof.
  destruct (@Register_never_reports_duplicate _ _ (UserRepo.Mysql (P := platform)) store)
    as [_ Hrefused].
  assert (Hmake : UserRepo.MakeUser "alice" "pw" "Alice" "" "Other" "2000-01-01" "@other"
                    (handlers.UserRepo (service db_one))
                  = ((None, Some ErrExists),
                     snd (UserRepo.MakeUser "alice" "pw" "Alice" "" "Other" "2000-01-01"
                            "@other" (handlers.UserRepo (service db_one)))))
    by reflexivity.
  destruct (Hrefused (registerRequest "alice" "pw" "Alice" "Other" "2000-01-01" "@other")
                     (service db_one) _ None ErrExists _ eq_refl eq_refl Hmake)
    as [Hanswer _].
  exact Hanswer.
Defined.

(** X19, witness: with Alice's token, user 3 is subscribed to user 2; user
    9 cannot be. *)
Lemma HTTP_subscribe_outcomes_witness :
  fst (handlers.SubscribeToUser (subscribeRequest "Bearer token-0" 2 3) (service db_unbound))
  = Done {| handlers.StatusCode := 200; handlers.Written := handlers.NoBody |}
  /\ fst (handlers.SubscribeToUser (subscribeRequest "Bearer token-0" 2 9)
                                   (service db_unbound))
     = Done (handlers.http_Error handlers.ErrBadRequest 400).
Proof.
  assert (Hknown : fst (sessions.Check (bearerKey "Bearer token-0")
                                       (handlers.Sessions (service db_unbound))) <> None)
    by (simpl; discriminate).
  assert (Hscheme : HasPrefix "Bearer token-0" "Bearer " = true) by reflexivity.
  split.
  - destruct (HTTP_subscribe_outcomes (P := platform) (Store := store) (service db_unbound)
                (subscribeRequest "Bearer token-0" 2 3)
                {| handlers.sf_UserID := 2; handlers.sf_SubscriberID := 3 |}
                Hscheme Hknown eq_refl) as [Hok _]; try (simpl; discriminate).
    apply Hok.
    + exists bob. simpl. auto.
    + exists carol. simpl. auto.
  - destruct (HTTP_subscribe_outcomes (P := platform) (Store := store) (service db_unbound)
                (subscribeRequest "Bearer token-0" 2 9)
                {| handlers.sf_UserID := 2; handlers.sf_SubscriberID := 9 |}
                Hscheme Hknown eq_refl) as [_ Hbad]; try (simpl; discriminate).
    apply Hbad. right.
    intros s [<-|[<-|[<-|[]]]]; simpl; discriminate.
Defined.

(** X20, witness: Carol sends [/start] twice. *)
Lemma start_command_binds_once_witness :
  bot.startHandler {| tgbotapi.Message := Some (carolWrites "/start") |}
                   (snd (user.UpdateUser 1003 "carol" db_unbound))
  = (Done [tgbotapi.NewMessage 1003 "no rows updated"],
     snd (user.UpdateUser 1003 "carol" db_unbound)).
Proof.
  destruct (start_command_binds_once (carolWrites "/start")
              {| tgbotapi.ID := 1003; tgbotapi.UserName := "carol" |}
              db_unbound (snd (user.UpdateUser 1003 "carol" db_unbound)) eq_refl carol_binds)
    as [_ Hagain].
  exact Hagain.
Defined.

End FurtherExamples.
